(** * chr_phase_plot: the feature layout engine of [ideogram.py]

    A shallow embedding of [chromosome_collections] (src/ideogram.py, lines
    34-75) and of the pandas operations it calls, followed by the properties
    the specification states about it.

    The function is a Python generator over a caller-owned [pandas.DataFrame].
    It is embedded as a computation in a state-and-exception monad whose state
    holds the caller's frame (a shared, mutable object), the lines written to
    standard output by [print] and the batches yielded so far.  Running the
    computation corresponds to draining the generator with a [for] loop, as the
    script does: the batches yielded before an exception are kept in the state,
    and so is whatever the frame looked like when the exception was raised. *)

From Stdlib Require Import String List Bool Arith ZArith Lia.
From Stdlib Require Import Permutation Sorted OrderedTypeEx DecimalString.
Import ListNotations.

Local Open Scope string_scope.
Local Open Scope list_scope.

(** ** Data model *)

(** The scalars of the frame's coordinate columns and of the lane map are
    whatever the caller supplies (numpy integers, Python floats, ...); the
    engine only adds and subtracts them. *)
Class Num (T : Type) : Type := {
  add : T -> T -> T;
  sub : T -> T -> T
}.

(** A [pandas.DataFrame] as the engine sees it.  The columns ['chrom'],
    ['start'] and ['end'] are required and typed (the engine assumes
    well-formed numeric input); ['width'] is optional; every other column
    (['colors'], ['color'], ['strand'], ...) is kept by name, in column order,
    with uninterpreted cells.  A key of the ['chrom'] column is a string, so the
    missing values that [groupby] would drop cannot occur. *)
Record DataFrame (X obj : Type) : Type := mkDataFrame {
  chrom : list string;
  start : list X;
  end_ : list X;
  width : option (list X);
  others : list (string * list obj)
}.
Arguments mkDataFrame {X obj}.
Arguments chrom {X obj}.
Arguments start {X obj}.
Arguments end_ {X obj}.
Arguments width {X obj}.
Arguments others {X obj}.

(** [matplotlib.collections.PolyCollection(verts, facecolors=..., **kwargs)]:
    the engine only constructs it. *)
Record PolyCollection (X Y obj kw : Type) : Type := mkPolyCollection {
  verts : list (list (X * Y));
  facecolors : list obj;
  kwargs : kw
}.
Arguments mkPolyCollection {X Y obj kw}.
Arguments verts {X Y obj kw}.
Arguments facecolors {X Y obj kw}.
Arguments kwargs {X Y obj kw}.

Inductive exn : Type :=
| KeyError (key : string).

Inductive result (A : Type) : Type :=
| Ok (a : A)
| Raise (e : exn).
Arguments Ok {A}.
Arguments Raise {A}.

(** What a run of the generator can change or produce. *)
Record world (X Y obj kw : Type) : Type := mkWorld {
  w_df : DataFrame X obj;
  w_stdout : list string;
  w_yielded : list (PolyCollection X Y obj kw)
}.
Arguments mkWorld {X Y obj kw}.
Arguments w_df {X Y obj kw}.
Arguments w_stdout {X Y obj kw}.
Arguments w_yielded {X Y obj kw}.

(** ** pandas and dict operations *)

Section Frames.
Context {X obj : Type} `{Num X}.

(** [d[k]] on a dict, and [df[name]] on the untyped columns. *)
Fixpoint lookup {V : Type} (k : string) (d : list (string * V)) : option V :=
  match d with
  | [] => None
  | (k', v) :: d' => if String.eqb k k' then Some v else lookup k d'
  end.

Definition nrows (df : DataFrame X obj) : nat := length (chrom df).

(** Every column of a frame has one cell per row. *)
Definition well_formed (df : DataFrame X obj) : bool :=
  Nat.eqb (length (start df)) (nrows df)
  && Nat.eqb (length (end_ df)) (nrows df)
  && match width df with
     | Some w => Nat.eqb (length w) (nrows df)
     | None => true
     end
  && forallb (fun c => Nat.eqb (length (snd c)) (nrows df)) (others df).

(** [df['end'] - df['start']]: element-wise on two columns of one frame. *)
Definition col_sub (a b : list X) : list X :=
  map (fun p => sub (fst p) (snd p)) (combine a b).

(** [df['width'] = v] and [del df['width']]. *)
Definition set_width (df : DataFrame X obj) (v : list X) : DataFrame X obj :=
  mkDataFrame (chrom df) (start df) (end_ df) (Some v) (others df).

Definition del_width_col (df : DataFrame X obj) : DataFrame X obj :=
  mkDataFrame (chrom df) (start df) (end_ df) None (others df).

(** Row selection by a boolean mask. *)
Fixpoint take_rows {A : Type} (mask : list bool) (l : list A) : list A :=
  match mask, l with
  | m :: mask', a :: l' =>
      if m then a :: take_rows mask' l' else take_rows mask' l'
  | _, _ => []
  end.

(** The sub-frame of the rows whose key is [k], in their original order. *)
Definition group_rows (k : string) (df : DataFrame X obj) : DataFrame X obj :=
  let mask := map (String.eqb k) (chrom df) in
  mkDataFrame (take_rows mask (chrom df))
              (take_rows mask (start df))
              (take_rows mask (end_ df))
              (option_map (take_rows mask) (width df))
              (map (fun c => (fst c, take_rows mask (snd c))) (others df)).

(** The group keys: [groupby] has [sort=True] by default, so the distinct
    keys come in ascending order (strings compare lexicographically). *)
Fixpoint insert_key (k : string) (l : list string) : list string :=
  match l with
  | [] => [k]
  | h :: t =>
      match String.compare k h with
      | Lt => k :: l
      | Eq => l
      | Gt => h :: insert_key k t
      end
  end.

Definition sorted_keys (l : list string) : list string :=
  fold_right insert_key [] l.

(** Iterating [df.groupby('chrom')]: the pairs (key, sub-frame). *)
Definition groupby_chrom (df : DataFrame X obj)
  : list (string * DataFrame X obj) :=
  map (fun k => (k, group_rows k df)) (sorted_keys (chrom df)).

End Frames.

(** ** The generator monad *)

Section Engine.
Context {X Y obj kw : Type} `{Num X} `{Num Y}.

Definition M (A : Type) : Type :=
  world X Y obj kw -> result A * world X Y obj kw.

Definition ret {A : Type} (a : A) : M A := fun w => (Ok a, w).

Definition bind {A B : Type} (m : M A) (f : A -> M B) : M B :=
  fun w =>
    match m w with
    | (Ok a, w') => f a w'
    | (Raise e, w') => (Raise e, w')
    end.

Definition raise {A : Type} (e : exn) : M A := fun w => (Raise e, w).

Definition get_df : M (DataFrame X obj) := fun w => (Ok (w_df w), w).

Definition put_df (df : DataFrame X obj) : M unit :=
  fun w => (Ok tt, mkWorld df (w_stdout w) (w_yielded w)).

Definition print (s : string) : M unit :=
  fun w => (Ok tt, mkWorld (w_df w) (w_stdout w ++ [s]) (w_yielded w)).

Definition yield (pc : PolyCollection X Y obj kw) : M unit :=
  fun w => (Ok tt, mkWorld (w_df w) (w_stdout w) (w_yielded w ++ [pc])).

(** [d[k]], raising [KeyError(k)]. *)
Definition getitem {V : Type} (d : list (string * V)) (k : string) : M V :=
  match lookup k d with
  | Some v => ret v
  | None => raise (KeyError k)
  end.

(** [group[['start', 'width']].values]: the rows (start, width). *)
Definition start_width (group : DataFrame X obj) : M (list (X * X)) :=
  match width group with
  | Some w => ret (combine (start group) w)
  | None => raise (KeyError "width")
  end.

Fixpoint for_each {A : Type} (l : list A) (body : A -> M unit) : M unit :=
  match l with
  | [] => ret tt
  | a :: l' => bind (body a) (fun _ => for_each l' body)
  end.

End Engine.

Notation "x <- m ;; k" := (bind m (fun x => k))
  (at level 61, m at next level, right associativity).
Notation "m ;;; k" := (bind m (fun _ => k))
  (at level 61, right associativity).

(** ** The layout engine *)

Section Layout.
Context {X Y obj kw : Type} `{Num X} `{Num Y}.

(** The body of the [for] loop, lines 61-73. *)
Definition loop_body (y_positions : list (string * Y)) (height : Y)
  (kwargs : kw) (it : string * DataFrame X obj) : M (X:=X) (Y:=Y) (obj:=obj) (kw:=kw) unit :=
  let (chrom, group) := it in
  print chrom ;;;
  y0 <- getitem y_positions chrom ;;
  let yrange := (y0, height) in
  xranges <- start_width group ;;
  let (ymin, ywidth) := yrange in
  let ymax := add ymin ywidth in
  let verts :=
    map (fun xr : X * X =>
           let (xmin, xwidth) := xr in
           [(xmin, ymin);
            (xmin, ymax);
            (add xmin xwidth, ymax);
            (add xmin xwidth, ymin);
            (xmin, ymin)]) xranges in
  colors <- getitem (others group) "colors" ;;
  yield (mkPolyCollection verts colors kwargs).

(** [chromosome_collections(df, y_positions, height, **kwargs)]; [df] is the
    frame held by the state. *)
Definition chromosome_collections (y_positions : list (string * Y))
  (height : Y) (kwargs : kw) : M (X:=X) (Y:=Y) (obj:=obj) (kw:=kw) unit :=
  df <- get_df ;;
  del_width <-
    match width df with
    | None =>
        put_df (set_width df (col_sub (end_ df) (start df))) ;;;
        ret true
    | Some _ => ret false
    end ;;
  df <- get_df ;;
  for_each (groupby_chrom df) (loop_body y_positions height kwargs) ;;;
  if del_width : bool
  then df <- get_df ;; put_df (del_width_col df)
  else ret tt.

(** Draining the generator on the caller's frame [df]. *)
Definition run (df : DataFrame X obj) (y_positions : list (string * Y))
  (height : Y) (kwargs : kw) : result unit * world X Y obj kw :=
  chromosome_collections y_positions height kwargs (mkWorld df [] []).

End Layout.

(** ** Reading a run *)

Section Views.
Context {X Y obj kw : Type} {NX : Num X} {NY : Num Y}.

(** The cells of column [col] that belong to the records of category [c], in
    the order of the records. *)
Definition rows_of {A : Type} (c : string) (keys : list string)
  (col : list A) : list A :=
  map snd (filter (fun r => String.eqb c (fst r)) (combine keys col)).

(** The width of every record: the ['width'] column when the frame has one,
    otherwise [end - start]. *)
Definition widths (df : DataFrame X obj) : list X :=
  match width df with
  | Some w => w
  | None => col_sub (end_ df) (start df)
  end.

(** The frame after lines 56-59: the caller's frame, with the ['width']
    column synthesized when it had none. *)
Definition with_width (df : DataFrame X obj) : DataFrame X obj :=
  match width df with
  | Some _ => df
  | None => set_width df (col_sub (end_ df) (start df))
  end.

(** The (start, width) and (start, end) of the records of category [c]. *)
Definition records_xw (df : DataFrame X obj) (c : string) : list (X * X) :=
  rows_of c (chrom df) (combine (start df) (widths df)).

Definition records_se (df : DataFrame X obj) (c : string) : list (X * X) :=
  rows_of c (chrom df) (combine (start df) (end_ df)).

(** Each iteration prints its category and then yields its batch, so the
    batches of a run pair up with the printed lines (an iteration that raises
    has printed but not yielded). *)
Definition emitted (r : result unit * world X Y obj kw)
  : list (string * PolyCollection X Y obj kw) :=
  combine (w_stdout (snd r)) (w_yielded (snd r)).


(** The rectangle of lines 66-70. *)
Definition rect (ymin ymax : Y) (xr : X * X) : list (X * Y) :=
  let (xmin, xwidth) := xr in
  [(xmin, ymin); (xmin, ymax); (add xmin xwidth, ymax);
   (add xmin xwidth, ymin); (xmin, ymin)].

(** One iteration of the loop on the group of category [c], as a function of
    the frame the loop runs on. *)
Definition batch_of (df : DataFrame X obj) (y_positions : list (string * Y))
  (height : Y) (kwargs : kw) (c : string)
  : result (PolyCollection X Y obj kw) :=
  match lookup c y_positions with
  | None => Raise (KeyError c)
  | Some y0 =>
      match lookup "colors" (others df) with
      | None => Raise (KeyError "colors")
      | Some cs =>
          Ok (mkPolyCollection
                (map (rect y0 (add y0 height)) (records_xw df c))
                (rows_of c (chrom df) cs) kwargs)
      end
  end.

(** The whole loop: printed lines, yielded batches, how it ended. *)
Fixpoint layout (f : string -> result (PolyCollection X Y obj kw))
  (ks : list string)
  : list string * list (PolyCollection X Y obj kw) * result unit :=
  match ks with
  | [] => ([], [], Ok tt)
  | k :: ks' =>
      match f k with
      | Ok pc =>
          let '(p, b, r) := layout f ks' in (k :: p, pc :: b, r)
      | Raise e => ([k], [], Raise e)
      end
  end.

Definition printed (f : string -> result (PolyCollection X Y obj kw))
  (ks : list string) : list string := fst (fst (layout f ks)).

Definition batches (f : string -> result (PolyCollection X Y obj kw))
  (ks : list string) : list (PolyCollection X Y obj kw) :=
  snd (fst (layout f ks)).

Definition outcome (f : string -> result (PolyCollection X Y obj kw))
  (ks : list string) : result unit := snd (layout f ks).

(** The distinct categories in the order of their first occurrence. *)
Fixpoint first_seen (l : list string) : list string :=
  match l with
  | [] => []
  | k :: l' => k :: filter (fun x => negb (String.eqb x k)) (first_seen l')
  end.

(** Strict lexicographic order on category names. *)
Definition key_lt (a b : string) : Prop := String.compare a b = Lt.

(** The reading of the data-model invariant under which a record without a
    lane is dropped quietly: the run ends normally and lays out exactly the
    categories that have a lane. *)
Definition silently_excludes (df : DataFrame X obj)
  (y_positions : list (string * Y)) (height : Y) (kwargs : kw) : Prop :=
  fst (run df y_positions height kwargs) = Ok tt /\
  forall c, In c (chrom df) ->
    (In c (map fst (emitted (run df y_positions height kwargs)))
     <-> lookup c y_positions <> None).

End Views.

(** ** Concrete inputs *)

#[export] Instance Z_Num : Num Z := {| add := Z.add; sub := Z.sub |}.

(** The two intervals of the specification's examples. *)
Definition ex_df : DataFrame Z string :=
  mkDataFrame ["chr1"; "chr2"] [100; 0]%Z [500; 300]%Z None
              [("colors", ["red"; "blue"])].

Definition ex_y : list (string * Z) := [("chr1", 0%Z); ("chr2", 2%Z)].

(** The lane maps of the specification's failing example (no lane for
    chr2), and its mirror image (no lane for chr1). *)
Definition ex_y_chr1 : list (string * Z) := [("chr1", 0%Z)].

Definition ex_y_chr2 : list (string * Z) := [("chr2", 2%Z)].

(** The batches the specification's second example expects. *)
Definition ex_batch_chr1 : PolyCollection Z Z string unit :=
  mkPolyCollection
    [[(100, 0); (100, 1); (500, 1); (500, 0); (100, 0)]]%Z ["red"] tt.

Definition ex_batch_chr2 : PolyCollection Z Z string unit :=
  mkPolyCollection
    [[(0, 2); (0, 3); (300, 3); (300, 2); (0, 2)]]%Z ["blue"] tt.

(** The same intervals with an explicit ['width'] column. *)
Definition ex_df_width : DataFrame Z string :=
  mkDataFrame ["chr1"; "chr2"] [100; 0]%Z [500; 300]%Z (Some [400; 300]%Z)
              [("colors", ["red"; "blue"])].

(** The same intervals with their colours under the documented name
    ['color']. *)
Definition ex_df_color : DataFrame Z string :=
  mkDataFrame ["chr1"; "chr2"] [100; 0]%Z [500; 300]%Z None
              [("color", ["red"; "blue"])].

(** Records whose categories are met in the order chr2, chr10, chr1. *)
Definition ex_df_unordered : DataFrame Z string :=
  mkDataFrame ["chr2"; "chr10"; "chr2"; "chr1"] [0; 5; 40; 7]%Z
              [30; 9; 90; 8]%Z None
              [("colors", ["red"; "blue"; "green"; "grey"])].

Definition ex_y_unordered : list (string * Z) :=
  [("chr1", 4%Z); ("chr2", 2%Z); ("chr10", 0%Z)].

(** The batch of chr2 for them: the records of rows 0 and 2, in that
    order. *)
Definition ex_batch_unordered_chr2 : PolyCollection Z Z string unit :=
  mkPolyCollection
    [[(0, 2); (0, 3); (30, 3); (30, 2); (0, 2)];
     [(40, 2); (40, 3); (90, 3); (90, 2); (40, 2)]]%Z
    ["red"; "green"] tt.

(** Keyword arguments as the script's gene track would pass them, and the
    batch of chr1 that carries them. *)
Definition ex_kwargs : list (string * string) :=
  [("alpha", "0.5"); ("linewidths", "0")].

Definition ex_batch_kwargs
  : PolyCollection Z Z string (list (string * string)) :=
  mkPolyCollection
    [[(100, 0); (100, 1); (500, 1); (500, 0); (100, 0)]]%Z ["red"]
    ex_kwargs.

(** ** The script around the engine (lines 78-172) *)

(** Python's [d[k] = v] on a dict and [df[name] = v] on the untyped columns:
    an existing key keeps its place, a new one goes last. *)
Fixpoint dict_set {V : Type} (k : string) (v : V) (d : list (string * V))
  : list (string * V) :=
  match d with
  | [] => [(k, v)]
  | (k', v') :: d' =>
      if String.eqb k k' then (k, v) :: d' else (k', v') :: dict_set k v d'
  end.

(** The items of [list(range(1, 23)) + ['X', 'Y']] and ['%s' % i]. *)
Inductive item : Type :=
| IntItem (n : nat)
| StrItem (s : string).

Definition percent_s (i : item) : string :=
  match i with
  | IntItem n => NilZero.string_of_uint (Nat.to_uint n)
  | StrItem s => s
  end.

Definition chromosome_list : list string :=
  map (fun i => String.append "chr" (percent_s i))
      (map IntItem (seq 1 22) ++ [StrItem "X"; StrItem "Y"]).

(** Python floats: opaque values with the operations the script applies to
    them; [of_int] is the conversion of an int operand, [of_decimal m d] the
    literal with mantissa [m] and [d] digits after the point. *)
Class Float (F : Type) : Type := {
  of_int : Z -> F;
  of_decimal : Z -> nat -> F;
  fadd : F -> F -> F;
  fsub : F -> F -> F;
  fdiv : F -> F -> F
}.

Definition chrom_height : Z := 1.

Definition chrom_spacing : Z := 1.

Definition gene_height {F : Type} {FF : Float F} : F := of_decimal 4 1.

Definition gene_padding {F : Type} {FF : Float F} : F := of_decimal 1 1.

(** The variables of the loop of lines 99-110. *)
Record lanes (F : Type) : Type := mkLanes {
  ybase : Z;
  chrom_ybase : list (string * Z);
  gene_ybase : list (string * F);
  chrom_centers : list (string * F)
}.
Arguments mkLanes {F}.
Arguments ybase {F}.
Arguments chrom_ybase {F}.
Arguments gene_ybase {F}.
Arguments chrom_centers {F}.

(** What the script can raise. *)
Inductive script_exn : Type :=
| OfExn (e : exn)
| ZeroDivisionError
| IndexError.

Inductive sresult (A : Type) : Type :=
| SOk (a : A)
| SRaise (e : script_exn).
Arguments SOk {A}.
Arguments SRaise {A}.

(** What the script hands to matplotlib. *)
Record figure (X Y obj kw F : Type) : Type := mkFigure {
  collections : list (PolyCollection X Y obj kw);
  yticks : list F;
  yticklabels : list string
}.
Arguments mkFigure {X Y obj kw F}.
Arguments collections {X Y obj kw F}.
Arguments yticks {X Y obj kw F}.
Arguments yticklabels {X Y obj kw F}.

Record script_state (X obj F : Type) : Type := mkScriptState {
  ideo : DataFrame X obj;
  fig : figure X Z obj (list (string * obj)) F;
  stdout : list string
}.
Arguments mkScriptState {X obj F}.
Arguments ideo {X obj F}.
Arguments fig {X obj F}.
Arguments stdout {X obj F}.

Section Script.
Context {X obj F : Type} {NX : Num X} {FF : Float F}.

(** One iteration of the loop of lines 106-110, for the lane height
    [height], the spacing [spacing] and the gene track geometry. *)
Definition lane_step (height spacing : Z) (g_height g_padding : F)
  (st : lanes F) (chrom : string) : lanes F :=
  mkLanes (ybase st + (height + spacing))
          (dict_set chrom (ybase st) (chrom_ybase st))
          (dict_set chrom (fsub (fsub (of_int (ybase st)) g_height) g_padding)
                    (gene_ybase st))
          (dict_set chrom
                    (fadd (of_int (ybase st))
                          (fdiv (of_int height) (of_decimal 2 0)))
                    (chrom_centers st)).

(** Lines 99-110: [for chrom in chromosome_list[::-1]: ...]. *)
Definition build_lanes (height spacing : Z) (g_height g_padding : F)
  (names : list string) : lanes F :=
  fold_left (lane_step height spacing g_height g_padding) (rev names)
            (mkLanes 0 [] [] []).

(** [df[mask]]: the rows selected by a boolean mask. *)
Definition select_rows (mask : list bool) (df : DataFrame X obj)
  : DataFrame X obj :=
  mkDataFrame (take_rows mask (chrom df))
              (take_rows mask (start df))
              (take_rows mask (end_ df))
              (option_map (take_rows mask) (width df))
              (map (fun c => (fst c, take_rows mask (snd c))) (others df)).

(** [x in names]. *)
Definition isin (names : list string) (x : string) : bool :=
  existsb (String.eqb x) names.

(** Line 120: [ideo[ideo.chrom.apply(lambda x: x in chromosome_list)]]. *)
Definition filter_chromosomes (names : list string) (df : DataFrame X obj)
  : DataFrame X obj :=
  select_rows (map (isin names) (chrom df)) df.

(** [df[name] = v] for a column other than the typed ones. *)
Definition set_column (name : string) (v : list obj) (df : DataFrame X obj)
  : DataFrame X obj :=
  mkDataFrame (chrom df) (start df) (end_ df) (width df)
              (dict_set name v (others df)).

(** A list comprehension whose element expression can raise. *)
Fixpoint list_comp {A B : Type} (f : A -> sresult B) (l : list A)
  : sresult (list B) :=
  match l with
  | [] => SOk []
  | a :: l' =>
      match f a with
      | SRaise e => SRaise e
      | SOk b =>
          match list_comp f l' with
          | SRaise e => SRaise e
          | SOk bs => SOk (b :: bs)
          end
      end
  end.

(** [paired_cm[i % len(paired_cm)]]. *)
Definition pick_color (paired_cm : list obj) (i : nat) : sresult obj :=
  match length paired_cm with
  | 0 => SRaise ZeroDivisionError
  | S _ =>
      match nth_error paired_cm (i mod length paired_cm) with
      | Some c => SOk c
      | None => SRaise IndexError
      end
  end.

(** Line 140: [[paired_cm[i % len(paired_cm)] for i in range(0, len(ideo))]]. *)
Definition cycle_colors (paired_cm : list obj) (n : nat)
  : sresult (list obj) :=
  list_comp (pick_color paired_cm) (seq 0 n).

(** [d[k]] in the script. *)
Definition sgetitem {V : Type} (d : list (string * V)) (k : string)
  : sresult V :=
  match lookup k d with
  | Some v => SOk v
  | None => SRaise (OfExn (KeyError k))
  end.

(** Lines 120-140: the frame handed to the engine, from the table read. *)
Definition prepare (names : list string) (paired_cm : list obj)
  (table : DataFrame X obj) : sresult (DataFrame X obj) :=
  let ideo := filter_chromosomes names table in
  let ideo := set_width ideo (col_sub (end_ ideo) (start ideo)) in
  match cycle_colors paired_cm (nrows ideo) with
  | SRaise e => SRaise e
  | SOk colors => SOk (set_column "colors" colors ideo)
  end.

(** Lines 94-171 for the whitelist [names] and the geometry given: the
    table read by [pandas.read_table] and the palette
    [matplotlib.colormaps['Paired'].colors] are the inputs; the figure
    holds what [add_collection], [set_yticks] and [set_yticklabels]
    receive. *)
Definition plot (names : list string) (height spacing : Z)
  (g_height g_padding : F) (table : DataFrame X obj) (paired_cm : list obj)
  : sresult (script_state X obj F) :=
  let L := build_lanes height spacing g_height g_padding names in
  match prepare names paired_cm table with
  | SRaise e => SRaise e
  | SOk ideo =>
      let (r, w) :=
        chromosome_collections (chrom_ybase L) height []
          (mkWorld ideo ["adding ideograms..."] []) in
      match r with
      | Raise e => SRaise (OfExn e)
      | Ok _ =>
          match list_comp (sgetitem (chrom_centers L)) names with
          | SRaise e => SRaise e
          | SOk ticks =>
              SOk (mkScriptState (w_df w)
                     (mkFigure (w_yielded w) ticks names) (w_stdout w))
          end
      end
  end.

(** The script with its own constants. *)
Definition script (table : DataFrame X obj) (paired_cm : list obj)
  : sresult (script_state X obj F) :=
  plot chromosome_list chrom_height chrom_spacing gene_height gene_padding
       table paired_cm.

End Script.

(** ** 64-bit columns *)

(** The cells of an [int64] column: numpy arithmetic wraps around. *)
Record int64 : Type := mkInt64 { to_Z : Z }.

Definition wrap64 (z : Z) : Z :=
  ((z + 2 ^ 63) mod 2 ^ 64 - 2 ^ 63)%Z.

#[export] Instance int64_Num : Num int64 := {|
  add a b := mkInt64 (wrap64 (to_Z a + to_Z b));
  sub a b := mkInt64 (wrap64 (to_Z a - to_Z b))
|}.

Definition in_int64 (a : int64) : Prop :=
  (- 2 ^ 63 <= to_Z a < 2 ^ 63)%Z.

(** ** Concrete inputs for the script *)

(** Floats kept symbolic: every operation builds the expression it was
    applied to. *)
Inductive sfloat : Type :=
| SInt (z : Z)
| SDec (m : Z) (d : nat)
| SAdd (a b : sfloat)
| SSub (a b : sfloat)
| SDiv (a b : sfloat).

#[export] Instance sfloat_Float : Float sfloat := {|
  of_int := SInt;
  of_decimal := SDec;
  fadd := SAdd;
  fsub := SSub;
  fdiv := SDiv
|}.

(** A table with a category outside the whitelist and no colour column. *)
Definition ex_table : DataFrame Z string :=
  mkDataFrame ["chr2"; "chrUn"; "chr1"; "chr2"] [0; 5; 100; 40]%Z
              [30; 9; 500; 90]%Z None
              [("strand", ["+"; "-"; "+"; "+"])].

Definition ex_palette : list string := ["a6cee3"; "1f78b4"; "b2df8a"].

(** What the script produces on them. *)
Definition ex_state : script_state Z string sfloat :=
  Eval vm_compute in
    match script ex_table ex_palette with
    | SOk st => st
    | SRaise _ => mkScriptState ex_table (mkFigure [] [] []) []
    end.

(** A frame without rows, and one 64-bit record whose [end - start]
    overflows. *)
Definition ex_df_empty : DataFrame Z string := mkDataFrame [] [] [] None [].

Definition ex_df_int64 : DataFrame int64 string :=
  mkDataFrame ["chr1"] [mkInt64 (- 2 ^ 63)] [mkInt64 (2 ^ 63 - 1)] None
              [("colors", ["red"])].

Definition ex_batch_int64 : PolyCollection int64 Z string unit :=
  Eval vm_compute in
    mkPolyCollection
      [[(mkInt64 (- 2 ^ 63), 0); (mkInt64 (- 2 ^ 63), 1);
        (mkInt64 (2 ^ 63 - 1), 1); (mkInt64 (2 ^ 63 - 1), 0);
        (mkInt64 (- 2 ^ 63), 0)]]%Z
      ["red"] tt.

(** ** Properties *)

Section Properties.
Context {X Y obj kw : Type} {NX : Num X} {NY : Num Y}.


Lemma take_rows_rows_of {A : Type} (c : string) (keys : list string)
  (col : list A) :
  take_rows (map (String.eqb c) keys) col = rows_of c keys col.
Proof.
  unfold rows_of. revert col.
  induction keys as [|k keys IH]; intros [|a col]; simpl; try reflexivity.
  destruct (String.eqb c k); simpl; rewrite IH; reflexivity.
Qed.

Lemma take_rows_combine {A B : Type} (mask : list bool) (a : list A)
  (b : list B) :
  combine (take_rows mask a) (take_rows mask b) = take_rows mask (combine a b).
Proof.
  revert a b.
  induction mask as [|m mask IH]; intros [|x a] [|z b]; simpl;
    try reflexivity.
  - destruct m; simpl; [reflexivity|].
    destruct (take_rows mask a); reflexivity.
  - destruct m; simpl; rewrite IH; reflexivity.
Qed.

Lemma lookup_map_cols {A : Type} (f : list A -> list A) (k : string)
  (l : list (string * list A)) :
  lookup k (map (fun c => (fst c, f (snd c))) l) = option_map f (lookup k l).
Proof.
  induction l as [|[k' v] l IH]; simpl; [reflexivity|].
  destruct (String.eqb k k'); [reflexivity|exact IH].
Qed.

(** One iteration on the group of [c] does what [batch_of] says. *)
Lemma loop_body_group (df : DataFrame X obj) (w0 : list X)
  (y : list (string * Y)) (h : Y) (k : kw) (c : string)
  (w : world X Y obj kw) :
  width df = Some w0 ->
  loop_body y h k (c, group_rows c df) w =
  match batch_of df y h k c with
  | Ok pc =>
      (Ok tt, mkWorld (w_df w) (w_stdout w ++ [c]) (w_yielded w ++ [pc]))
  | Raise e => (Raise e, mkWorld (w_df w) (w_stdout w ++ [c]) (w_yielded w))
  end.
Proof.
  intros Hw.
  unfold loop_body, batch_of, bind, print, getitem, start_width, yield,
    records_xw, widths.
  simpl. rewrite Hw. simpl.
  destruct (lookup c y) as [y0|]; simpl; [|reflexivity].
  rewrite lookup_map_cols.
  destruct (lookup "colors" (others df)) as [cs|]; simpl; [|reflexivity].
  rewrite take_rows_combine, !take_rows_rows_of.
  reflexivity.
Qed.

Lemma layout_ext (f g : string -> result (PolyCollection X Y obj kw))
  (ks : list string) :
  (forall c, f c = g c) -> layout f ks = layout g ks.
Proof.
  intros E. induction ks as [|c ks IH]; simpl; [reflexivity|].
  rewrite E, IH. reflexivity.
Qed.

Lemma batch_of_with_width (df : DataFrame X obj) (y : list (string * Y))
  (h : Y) (k : kw) (c : string) :
  batch_of (with_width df) y h k c = batch_of df y h k c.
Proof.
  unfold batch_of, with_width, records_xw, widths.
  destruct df as [ch st en [w|] ot]; reflexivity.
Qed.

(** The loop over the groups of a frame that has a ['width'] column. *)
Lemma for_each_layout (df : DataFrame X obj) (w0 : list X)
  (y : list (string * Y)) (h : Y) (k : kw) :
  width df = Some w0 ->
  forall (ks : list string) (w : world X Y obj kw),
    for_each (map (fun c => (c, group_rows c df)) ks) (loop_body y h k) w =
    let '(p, b, r) := layout (batch_of df y h k) ks in
    (r, mkWorld (w_df w) (w_stdout w ++ p) (w_yielded w ++ b)).
Proof.
  intros Hw ks.
  induction ks as [|c ks IH]; intros w; cbn [for_each map layout].
  - unfold ret. rewrite !app_nil_r. destruct w; reflexivity.
  - unfold bind. rewrite (loop_body_group df w0 y h k c w Hw).
    destruct (batch_of df y h k c) as [pc|e].
    + rewrite IH. destruct (layout (batch_of df y h k) ks) as [[p b] r].
      simpl. rewrite <- !app_assoc. reflexivity.
    + rewrite app_nil_r. reflexivity.
Qed.

(** A run, in one equation: the loop is [layout] over the sorted categories;
    the caller's frame is given back as it came when the run ends normally
    and with the synthesized column when it raises. *)
Lemma run_spec (df : DataFrame X obj) (y : list (string * Y)) (h : Y)
  (k : kw) :
  run df y h k =
  let '(p, b, r) := layout (batch_of df y h k) (sorted_keys (chrom df)) in
  (r, mkWorld (match r with Ok _ => df | Raise _ => with_width df end) p b).
Proof.
  unfold run, chromosome_collections, groupby_chrom.
  destruct df as [ch st en [w|] ot]; unfold bind, get_df, put_df, ret; simpl.
  - rewrite (for_each_layout (mkDataFrame ch st en (Some w) ot) w y h k
               eq_refl).
    simpl. destruct (layout _ _) as [[p b] [[]|e]]; reflexivity.
  - change (set_width (mkDataFrame ch st en None ot) (col_sub en st))
      with (with_width (mkDataFrame ch st en None ot)).
    rewrite (for_each_layout (with_width (mkDataFrame ch st en None ot))
               (col_sub en st) y h k eq_refl).
    rewrite (layout_ext _ (batch_of (mkDataFrame ch st en None ot) y h k))
      by (intros c; apply batch_of_with_width).
    simpl. destruct (layout _ _) as [[p b] [[]|e]]; reflexivity.
Qed.

Lemma run_outcome (df : DataFrame X obj) (y : list (string * Y)) (h : Y)
  (k : kw) :
  fst (run df y h k) = outcome (batch_of df y h k) (sorted_keys (chrom df)).
Proof.
  rewrite run_spec. unfold outcome.
  destruct (layout _ _) as [[p b] r]. reflexivity.
Qed.

Lemma run_stdout (df : DataFrame X obj) (y : list (string * Y)) (h : Y)
  (k : kw) :
  w_stdout (snd (run df y h k)) =
  printed (batch_of df y h k) (sorted_keys (chrom df)).
Proof.
  rewrite run_spec. unfold printed.
  destruct (layout _ _) as [[p b] r]. reflexivity.
Qed.

Lemma run_yielded (df : DataFrame X obj) (y : list (string * Y)) (h : Y)
  (k : kw) :
  w_yielded (snd (run df y h k)) =
  batches (batch_of df y h k) (sorted_keys (chrom df)).
Proof.
  rewrite run_spec. unfold batches.
  destruct (layout _ _) as [[p b] r]. reflexivity.
Qed.

Lemma run_df (df : DataFrame X obj) (y : list (string * Y)) (h : Y)
  (k : kw) :
  w_df (snd (run df y h k)) =
  match fst (run df y h k) with
  | Ok _ => df
  | Raise _ => with_width df
  end.
Proof.
  rewrite run_spec.
  destruct (layout _ _) as [[p b] r]. reflexivity.
Qed.

Lemma run_emitted (df : DataFrame X obj) (y : list (string * Y)) (h : Y)
  (k : kw) :
  emitted (run df y h k) =
  combine (printed (batch_of df y h k) (sorted_keys (chrom df)))
          (batches (batch_of df y h k) (sorted_keys (chrom df))).
Proof. unfold emitted. rewrite run_stdout, run_yielded. reflexivity. Qed.

(** *** The loop *)

Section Loop.
Variable f : string -> result (PolyCollection X Y obj kw).

Lemma layout_cons_ok (c : string) (ks : list string)
  (pc : PolyCollection X Y obj kw) :
  f c = Ok pc ->
  layout f (c :: ks) = (c :: printed f ks, pc :: batches f ks, outcome f ks).
Proof.
  intros E. unfold printed, batches, outcome. simpl. rewrite E.
  destruct (layout f ks) as [[p b] r]. reflexivity.
Qed.

Lemma layout_cons_raise (c : string) (ks : list string) (e : exn) :
  f c = Raise e -> layout f (c :: ks) = ([c], [], Raise e).
Proof. intros E. simpl. rewrite E. reflexivity. Qed.

(** The loop lays out a prefix of the categories, in order, and stops either
    at the end of the list or at the first category whose iteration raises,
    having printed that category. *)
Lemma layout_shape (ks : list string) :
  exists pre post,
    ks = pre ++ post /\
    Forall2 (fun c pc => f c = Ok pc) pre (batches f ks) /\
    printed f ks = pre ++ firstn 1 post /\
    ((post = [] /\ outcome f ks = Ok tt) \/
     (exists c post' e,
        post = c :: post' /\ f c = Raise e /\ outcome f ks = Raise e)).
Proof.
  induction ks as [|c ks IH].
  - exists [], []. repeat split; [constructor|left; split; reflexivity].
  - destruct (f c) as [pc|e] eqn:E.
    + destruct IH as (pre & post & Hks & Hall & Hp & Hend).
      exists (c :: pre), post.
      unfold printed, batches, outcome in *.
      rewrite (layout_cons_ok c ks pc E). simpl.
      repeat split.
      * rewrite Hks at 1. reflexivity.
      * constructor; assumption.
      * unfold printed. rewrite Hp. reflexivity.
      * exact Hend.
    + exists [], (c :: ks).
      unfold printed, batches, outcome.
      rewrite (layout_cons_raise c ks e E). simpl.
      repeat split; [constructor|].
      right. exists c, ks, e. repeat split; assumption.
Qed.

Lemma combine_prefix {A B : Type} (l tl : list A) (l' : list B) :
  length l = length l' -> combine (l ++ tl) l' = combine l l'.
Proof.
  revert l'. induction l as [|a l IH]; intros [|b l'] E; simpl in *;
    try discriminate; try reflexivity.
  - destruct tl; reflexivity.
  - rewrite IH by congruence. reflexivity.
Qed.

Lemma map_fst_combine {A B : Type} (l : list A) (l' : list B) :
  length l = length l' -> map fst (combine l l') = l.
Proof.
  revert l'. induction l as [|a l IH]; intros [|b l'] E; simpl in *;
    try discriminate; try reflexivity.
  rewrite IH by congruence. reflexivity.
Qed.

Lemma Forall2_combine_In {A B : Type} (R : A -> B -> Prop) (l : list A)
  (l' : list B) (a : A) (b : B) :
  Forall2 R l l' -> In (a, b) (combine l l') -> In a l /\ R a b.
Proof.
  intros HF. induction HF as [|x z l l' Hxz HF IH]; simpl; [tauto|].
  intros [E|Hin].
  - inversion E; subst. split; [left; reflexivity|assumption].
  - destruct (IH Hin). split; [right|]; assumption.
Qed.

Lemma Forall2_In_l {A B : Type} (R : A -> B -> Prop) (l : list A)
  (l' : list B) (a : A) :
  Forall2 R l l' -> In a l -> exists b, In b l' /\ R a b.
Proof.
  intros HF. induction HF as [|x z l l' Hxz HF IH]; simpl; [tauto|].
  intros [<-|Hin].
  - exists z. split; [left; reflexivity|assumption].
  - destruct (IH Hin) as (b & Hb & HR). exists b. split; [right|]; assumption.
Qed.

Lemma In_combine_r {A B : Type} (l : list A) (l' : list B) (b : B) :
  length l = length l' -> In b l' -> exists a, In (a, b) (combine l l').
Proof.
  revert l'. induction l as [|a l IH]; intros [|z l'] E; simpl in *;
    try discriminate; try tauto.
  intros [<-|Hin].
  - exists a. left. reflexivity.
  - destruct (IH l') as [x Hx]; [congruence|exact Hin|].
    exists x. right. exact Hx.
Qed.

(** Every yielded batch has its printed category. *)
Lemma batches_paired (ks : list string) (pc : PolyCollection X Y obj kw) :
  In pc (batches f ks) ->
  exists c, In (c, pc) (combine (printed f ks) (batches f ks)).
Proof.
  destruct (layout_shape ks) as (pre & post & Hks & Hall & Hp & _).
  rewrite Hp, combine_prefix by (eapply Forall2_length; eassumption).
  apply In_combine_r. eapply Forall2_length; eassumption.
Qed.

(** Every emitted batch is the batch of its category. *)
Lemma laid_out_In (ks : list string) (c : string)
  (pc : PolyCollection X Y obj kw) :
  In (c, pc) (combine (printed f ks) (batches f ks)) ->
  In c ks /\ f c = Ok pc.
Proof.
  destruct (layout_shape ks) as (pre & post & Hks & Hall & Hp & _).
  rewrite Hp, combine_prefix by (eapply Forall2_length; eassumption).
  intros Hin. subst ks.
  destruct (Forall2_combine_In _ _ _ _ _ Hall Hin) as [Hc E].
  split; [apply in_or_app; left|]; assumption.
Qed.

(** The categories laid out are an initial segment of the list. *)
Lemma laid_out_prefix (ks : list string) :
  exists post,
    ks = map fst (combine (printed f ks) (batches f ks)) ++ post.
Proof.
  destruct (layout_shape ks) as (pre & post & Hks & Hall & Hp & _).
  exists post.
  rewrite Hp, combine_prefix by (eapply Forall2_length; eassumption).
  rewrite map_fst_combine by (eapply Forall2_length; eassumption).
  exact Hks.
Qed.

(** When no iteration raises, all categories are laid out. *)
Lemma layout_all_ok (ks : list string) :
  (forall c, In c ks -> exists pc, f c = Ok pc) ->
  outcome f ks = Ok tt /\ printed f ks = ks /\
  Forall2 (fun c pc => f c = Ok pc) ks (batches f ks).
Proof.
  intros Hok.
  destruct (layout_shape ks) as (pre & post & Hks & Hall & Hp & Hend).
  destruct Hend as [[-> Hr]|(c & post' & e & -> & Hc & _)].
  - cbn [firstn] in Hp. rewrite app_nil_r in Hks, Hp. subst pre.
    repeat split; assumption.
  - destruct (Hok c) as [pc Hpc].
    + rewrite Hks. apply in_or_app. right. left. reflexivity.
    + congruence.
Qed.

(** The loop stops at the first category whose iteration raises. *)
Lemma layout_first_raise (pre post : list string) (c : string) (e : exn) :
  (forall x, In x pre -> exists pc, f x = Ok pc) ->
  f c = Raise e ->
  outcome f (pre ++ c :: post) = Raise e /\
  printed f (pre ++ c :: post) = pre ++ [c] /\
  Forall2 (fun x pc => f x = Ok pc) pre (batches f (pre ++ c :: post)).
Proof.
  intros Hpre Hc.
  induction pre as [|a pre IH]; simpl.
  - unfold outcome, printed, batches.
    rewrite (layout_cons_raise c post e Hc). simpl.
    repeat split. constructor.
  - destruct (Hpre a (or_introl eq_refl)) as [pc Ha].
    destruct IH as (Ho & Hp & Hb).
    { intros x Hx. apply Hpre. right. exact Hx. }
    unfold outcome, printed, batches in *.
    rewrite (layout_cons_ok a _ pc Ha). simpl.
    repeat split.
    + exact Ho.
    + unfold printed. rewrite Hp. reflexivity.
    + constructor; assumption.
Qed.

End Loop.

(** *** The group keys *)

Lemma key_lt_trans (a b c : string) : key_lt a b -> key_lt b c -> key_lt a c.
Proof.
  unfold key_lt. intros Hab Hbc.
  apply String_as_OT.cmp_lt in Hab. apply String_as_OT.cmp_lt in Hbc.
  apply String_as_OT.cmp_lt. exact (String_as_OT.lt_trans _ _ _ Hab Hbc).
Qed.

Lemma key_lt_irrefl (a : string) : ~ key_lt a a.
Proof.
  unfold key_lt. intros H.
  assert (E : String.compare a a = Eq) by (apply String_as_OT.cmp_eq; reflexivity).
  congruence.
Qed.

Lemma compare_Gt_key_lt (a b : string) :
  String.compare a b = Gt -> key_lt b a.
Proof.
  unfold key_lt. intros H. rewrite String.compare_antisym, H. reflexivity.
Qed.

Lemma insert_key_In (k x : string) (l : list string) :
  In x (insert_key k l) <-> x = k \/ In x l.
Proof.
  induction l as [|h t IH]; simpl.
  - intuition.
  - destruct (String.compare k h) eqn:E; simpl.
    + apply String.compare_eq_iff in E. subst h. intuition.
    + intuition.
    + rewrite IH. intuition.
Qed.

Lemma sorted_keys_In (x : string) (l : list string) :
  In x (sorted_keys l) <-> In x l.
Proof.
  induction l as [|k l IH]; simpl; [reflexivity|].
  rewrite insert_key_In, IH. intuition.
Qed.

Lemma insert_key_sorted (k : string) (l : list string) :
  StronglySorted key_lt l -> StronglySorted key_lt (insert_key k l).
Proof.
  induction 1 as [|h t Ht IH Hh]; simpl.
  - constructor; constructor.
  - destruct (String.compare k h) eqn:E.
    + constructor; assumption.
    + constructor; [constructor; assumption|].
      constructor; [exact E|].
      eapply Forall_impl; [|exact Hh].
      intros x Hx. exact (key_lt_trans _ _ _ E Hx).
    + constructor; [exact IH|].
      apply Forall_forall. intros x Hx.
      apply insert_key_In in Hx. destruct Hx as [->|Hx].
      * apply compare_Gt_key_lt. exact E.
      * rewrite Forall_forall in Hh. apply Hh. exact Hx.
Qed.

Lemma sorted_keys_sorted (l : list string) :
  StronglySorted key_lt (sorted_keys l).
Proof.
  induction l as [|k l IH]; simpl; [constructor|].
  apply insert_key_sorted. exact IH.
Qed.


Lemma sorted_app_l (l1 l2 : list string) :
  StronglySorted key_lt (l1 ++ l2) -> StronglySorted key_lt l1.
Proof.
  induction l1 as [|a l1 IH]; simpl; intros Hs; [constructor|].
  inversion Hs as [|? ? Ht Hh]; subst.
  constructor; [apply IH; exact Ht|].
  apply Forall_app in Hh. tauto.
Qed.

Lemma sorted_split (pre post : list string) (c : string) :
  StronglySorted key_lt (pre ++ c :: post) ->
  (forall x, In x pre -> key_lt x c) /\ (forall x, In x post -> key_lt c x).
Proof.
  induction pre as [|a pre IH]; simpl; intros Hs;
    inversion Hs as [|? ? Ht Hh]; subst.
  - rewrite Forall_forall in Hh. split; [intros x []|exact Hh].
  - destruct (IH Ht) as [Hl Hr]. split; [|exact Hr].
    intros x [<-|Hx]; [|apply Hl; exact Hx].
    rewrite Forall_forall in Hh. apply Hh.
    apply in_or_app. right. left. reflexivity.
Qed.


(** *** Records and their cells *)

Lemma rows_of_map {A B : Type} (g : A -> B) (c : string)
  (keys : list string) (col : list A) :
  rows_of c keys (map g col) = map g (rows_of c keys col).
Proof.
  unfold rows_of. revert col.
  induction keys as [|a keys IH]; intros [|v col]; simpl; try reflexivity.
  destruct (String.eqb c a); simpl; rewrite IH; reflexivity.
Qed.

Lemma rows_of_length {A : Type} (c : string) (keys : list string)
  (col : list A) :
  length col = length keys ->
  length (rows_of c keys col) = length (filter (String.eqb c) keys).
Proof.
  unfold rows_of. revert col.
  induction keys as [|a keys IH]; intros [|v col] E; simpl in *;
    try discriminate; try reflexivity.
  destruct (String.eqb c a); simpl; rewrite IH by congruence; reflexivity.
Qed.

Lemma combine_col_sub (st en : list X) :
  combine st (col_sub en st) =
  map (fun se => (fst se, sub (snd se) (fst se))) (combine st en).
Proof.
  unfold col_sub. revert en.
  induction st as [|s st IH]; intros [|e en]; simpl; try reflexivity.
  rewrite IH. reflexivity.
Qed.

Lemma well_formed_lengths (df : DataFrame X obj) :
  well_formed df = true ->
  length (combine (start df) (widths df)) = nrows df /\
  forall cs, lookup "colors" (others df) = Some cs -> length cs = nrows df.
Proof.
  unfold well_formed, widths, col_sub. intros Hwf.
  repeat (apply andb_prop in Hwf; destruct Hwf as [Hwf ?]).
  apply Nat.eqb_eq in Hwf.
  match goal with H : Nat.eqb (length (end_ df)) _ = true |- _ =>
    apply Nat.eqb_eq in H end.
  split.
  - rewrite length_combine.
    destruct (width df) as [w|].
    + match goal with H : Nat.eqb (length w) _ = true |- _ =>
        apply Nat.eqb_eq in H end.
      lia.
    + rewrite length_map, length_combine. lia.
  - match goal with H : forallb _ _ = true |- _ =>
      rewrite forallb_forall in H; rename H into Hall end.
    intros cs. generalize "colors" as name.
    induction (others df) as [|[n v] l IH]; simpl; [discriminate|].
    intros name. destruct (String.eqb name n).
    + intros E. inversion E; subst.
      apply Nat.eqb_eq. apply (Hall (n, cs)). left. reflexivity.
    + apply IH. intros x Hx. apply Hall. right. exact Hx.
Qed.

(** A batch emitted for category [c] is built from the lane of [c] and from
    the records of [c]. *)
Lemma emitted_inv (df : DataFrame X obj) (y : list (string * Y)) (h : Y)
  (k : kw) (c : string) (pc : PolyCollection X Y obj kw) :
  In (c, pc) (emitted (run df y h k)) ->
  In c (chrom df) /\
  exists y0 cs,
    lookup c y = Some y0 /\
    lookup "colors" (others df) = Some cs /\
    pc = mkPolyCollection (map (rect y0 (add y0 h)) (records_xw df c))
                          (rows_of c (chrom df) cs) k.
Proof.
  rewrite run_emitted. intros Hin.
  apply laid_out_In in Hin. destruct Hin as [Hc Hb].
  apply (proj1 (sorted_keys_In c (chrom df))) in Hc. split; [exact Hc|].
  unfold batch_of in Hb.
  destruct (lookup c y) as [y0|]; [|discriminate].
  destruct (lookup "colors" (others df)) as [cs|]; [|discriminate].
  exists y0, cs. inversion Hb. repeat split; reflexivity.
Qed.

Lemma batch_of_ok (df : DataFrame X obj) (y : list (string * Y)) (h : Y)
  (k : kw) (c : string) :
  lookup c y <> None ->
  lookup "colors" (others df) <> None ->
  exists pc, batch_of df y h k c = Ok pc.
Proof.
  intros Hy Hc. unfold batch_of.
  destruct (lookup c y); [|contradiction].
  destruct (lookup "colors" (others df)); [|contradiction].
  eexists. reflexivity.
Qed.

Lemma yielded_emitted (df : DataFrame X obj) (y : list (string * Y))
  (h : Y) (k : kw) (pc : PolyCollection X Y obj kw) :
  In pc (w_yielded (snd (run df y h k))) ->
  exists c, In (c, pc) (emitted (run df y h k)).
Proof.
  rewrite run_emitted, run_yielded. apply batches_paired.
Qed.

(** *** Counting records *)






(** ** The claims *)

(** C1 (vertical placement): a batch emitted for a category [c] whose lane
    is [y0] holds one rectangle per record of [c], and each of them has its
    lower horizontal edge at [y0] and its upper horizontal edge at
    [y0 + height]. *)
Theorem lane_edges (df : DataFrame X obj) (y : list (string * Y)) (h : Y)
  (k : kw) (c : string) (y0 : Y) (pc : PolyCollection X Y obj kw) :
  lookup c y = Some y0 ->
  In (c, pc) (emitted (run df y h k)) ->
  length (verts pc) = length (records_xw df c) /\
  forall poly, In poly (verts pc) ->
    map snd poly = [y0; add y0 h; add y0 h; y0; y0].
Proof.
  intros Hy Hin.
  destruct (emitted_inv _ _ _ _ _ _ Hin) as (_ & y1 & cs & Hy1 & _ & ->).
  assert (y1 = y0) by congruence. subst y1. simpl.
  split; [apply length_map|].
  intros poly Hp. apply in_map_iff in Hp.
  destruct Hp as ([s w] & <- & _). reflexivity.
Qed.

(** C2 (polygon closure): every polygon of every yielded batch has exactly
    five vertices and ends where it starts; the [j]-th polygon of a batch is
    the ring (start, y0), (start, y0+height), (start+width, y0+height),
    (start+width, y0), (start, y0) of the [j]-th record of the batch's
    category, [y0] being the lane of that category. *)
Theorem polygon_ring (df : DataFrame X obj) (y : list (string * Y)) (h : Y)
  (k : kw) (pc : PolyCollection X Y obj kw) (j : nat)
  (poly : list (X * Y)) :
  In pc (w_yielded (snd (run df y h k))) ->
  nth_error (verts pc) j = Some poly ->
  length poly = 5 /\
  nth_error poly 0 = nth_error poly 4 /\
  exists c s w y0,
    In (c, pc) (emitted (run df y h k)) /\
    nth_error (records_xw df c) j = Some (s, w) /\
    lookup c y = Some y0 /\
    poly = [(s, y0); (s, add y0 h); (add s w, add y0 h); (add s w, y0);
            (s, y0)].
Proof.
  intros Hpc Hj.
  destruct (yielded_emitted _ _ _ _ _ Hpc) as [c Hin].
  destruct (emitted_inv _ _ _ _ _ _ Hin) as (_ & y0 & cs & Hy & _ & E).
  rewrite E in Hj. simpl in Hj. rewrite nth_error_map in Hj.
  destruct (nth_error (records_xw df c) j) as [[s w]|] eqn:Er;
    [|discriminate].
  simpl in Hj. inversion Hj; subst poly.
  repeat split.
  exists c, s, w, y0. repeat split; assumption.
Qed.

(** C7 (order preservation): the polygons of every yielded batch are the
    rectangles of the records of the batch's category, in the order of the
    records in the frame, and the batch's colours are the ['colors'] cells of
    the same records in the same order; in a frame whose columns all have
    one cell per row the two lists have the same length. *)
Theorem batch_order (df : DataFrame X obj) (y : list (string * Y)) (h : Y)
  (k : kw) (pc : PolyCollection X Y obj kw) :
  In pc (w_yielded (snd (run df y h k))) ->
  exists c y0 cs,
    In (c, pc) (emitted (run df y h k)) /\
    lookup c y = Some y0 /\
    lookup "colors" (others df) = Some cs /\
    verts pc =
      map (fun xr => [(fst xr, y0); (fst xr, add y0 h);
                      (add (fst xr) (snd xr), add y0 h);
                      (add (fst xr) (snd xr), y0); (fst xr, y0)])
          (records_xw df c) /\
    facecolors pc = rows_of c (chrom df) cs /\
    (well_formed df = true -> length (facecolors pc) = length (verts pc)).
Proof.
  intros Hpc.
  destruct (yielded_emitted _ _ _ _ _ Hpc) as [c Hin].
  destruct (emitted_inv _ _ _ _ _ _ Hin) as (_ & y0 & cs & Hy & Hc & E).
  exists c, y0, cs. rewrite E at 2 3 4 5. simpl.
  repeat split; try assumption.
  - apply map_ext. intros [s w]. reflexivity.
  - intros Hwf. destruct (well_formed_lengths df Hwf) as [Hl Hcs].
    rewrite length_map. unfold records_xw.
    rewrite !rows_of_length; [reflexivity|exact Hl|apply Hcs; exact Hc].
Qed.


(** C4 (missing-lane failure): when some record has a category [c] without
    a lane, the iteration that processes [c] raises [KeyError(c)] whatever
    the group and the state; the run does not end normally; no batch is
    emitted for [c]; and on a frame that has a ['colors'] column the run
    ends with the [KeyError] of a category of the input that has no lane. *)
Theorem missing_lane_raises (df : DataFrame X obj) (y : list (string * Y))
  (h : Y) (k : kw) (c : string) :
  In c (chrom df) ->
  lookup c y = None ->
  (forall (g : DataFrame X obj) (w : world X Y obj kw),
      fst (loop_body y h k (c, g) w) = Raise (KeyError c)) /\
  (exists key, fst (run df y h k) = Raise (KeyError key)) /\
  ~ In c (map fst (emitted (run df y h k))) /\
  (lookup "colors" (others df) <> None ->
   exists c', In c' (chrom df) /\ lookup c' y = None /\
              fst (run df y h k) = Raise (KeyError c')).
Proof.
  intros Hc Hy.
  assert (Hraise : exists c' e,
             In c' (chrom df) /\ batch_of df y h k c' = Raise e /\
             fst (run df y h k) = Raise e).
  { rewrite run_outcome.
    destruct (layout_shape (batch_of df y h k) (sorted_keys (chrom df)))
      as (pre & post & Hks & Hall & _ & Hend).
    destruct Hend as [[-> _]|(c' & post' & e & -> & Hc' & Hr)].
    - exfalso. rewrite app_nil_r in Hks.
      assert (Hin : In c pre)
        by (rewrite <- Hks; apply sorted_keys_In; exact Hc).
      destruct (Forall2_In_l _ _ _ _ Hall Hin) as (pc & _ & Hpc).
      unfold batch_of in Hpc. rewrite Hy in Hpc. discriminate.
    - exists c', e. repeat split; try assumption.
      apply (proj1 (sorted_keys_In c' (chrom df))).
      rewrite Hks. apply in_or_app. right. left. reflexivity. }
  repeat split.
  - intros g w. unfold loop_body, bind, print, getitem, raise.
    simpl. rewrite Hy. reflexivity.
  - destruct Hraise as (c' & [key] & _ & _ & Hr). exists key. exact Hr.
  - intros Hin. apply in_map_iff in Hin.
    destruct Hin as ([c1 pc] & E & Hin). simpl in E. subst c1.
    destruct (emitted_inv _ _ _ _ _ _ Hin) as (_ & y0 & _ & Hy0 & _).
    congruence.
  - intros Hcol. destruct Hraise as (c' & e & Hc' & Hb & Hr).
    exists c'. unfold batch_of in Hb.
    destruct (lookup c' y) as [y0|].
    + destruct (lookup "colors" (others df)); [discriminate|].
      exfalso. apply Hcol. reflexivity.
    + inversion Hb; subst e. repeat split; assumption.
Qed.

(** C5, as amended: a record whose category has no lane is not dropped
    quietly.  On a frame that has a ['colors'] column, if [c0] is the least
    category of the input without a lane, the run ends with [KeyError(c0)]
    and the categories laid out are exactly those of the input below [c0]:
    no batch is emitted for [c0] nor for any category above it. *)
Theorem missing_lane_stops_layout (df : DataFrame X obj)
  (y : list (string * Y)) (h : Y) (k : kw) (c0 : string) :
  lookup "colors" (others df) <> None ->
  In c0 (chrom df) ->
  lookup c0 y = None ->
  (forall c, In c (chrom df) -> key_lt c c0 -> lookup c y <> None) ->
  fst (run df y h k) = Raise (KeyError c0) /\
  forall c, In c (map fst (emitted (run df y h k))) <->
            (In c (chrom df) /\ key_lt c c0).
Proof.
  intros Hcol Hc0 Hy0 Hlow.
  assert (Hin : In c0 (sorted_keys (chrom df)))
    by (apply sorted_keys_In; exact Hc0).
  destruct (in_split _ _ Hin) as (pre & post & Hks).
  pose proof (sorted_keys_sorted (chrom df)) as Hs. rewrite Hks in Hs.
  destruct (sorted_split _ _ _ Hs) as [Hpre Hpost].
  assert (Hraise : batch_of df y h k c0 = Raise (KeyError c0))
    by (unfold batch_of; rewrite Hy0; reflexivity).
  assert (Hok : forall x, In x pre -> exists pc, batch_of df y h k x = Ok pc).
  { intros x Hx. apply batch_of_ok; [|exact Hcol].
    apply Hlow; [|apply Hpre; exact Hx].
    apply (proj1 (sorted_keys_In x (chrom df))).
    rewrite Hks. apply in_or_app. left. exact Hx. }
  destruct (layout_first_raise _ pre post c0 _ Hok Hraise)
    as (Ho & Hp & Hb).
  rewrite run_outcome, run_emitted, Hks, Ho, Hp.
  split; [reflexivity|].
  rewrite combine_prefix, map_fst_combine
    by (eapply Forall2_length; eassumption).
  intros c. split.
  - intros Hc. split; [|apply Hpre; exact Hc].
    apply (proj1 (sorted_keys_In c (chrom df))).
    rewrite Hks. apply in_or_app. left. exact Hc.
  - intros [Hc Hlt].
    apply (proj2 (sorted_keys_In c (chrom df))) in Hc.
    rewrite Hks in Hc. apply in_app_or in Hc.
    destruct Hc as [Hc|[<-|Hc]].
    + exact Hc.
    + exfalso. exact (key_lt_irrefl _ Hlt).
    + exfalso. apply (key_lt_irrefl c).
      exact (key_lt_trans _ _ _ Hlt (Hpost c Hc)).
Qed.


(** C8, as amended: the batches come one per category in ascending
    lexicographic order of the category names, whatever the order of the
    records; when the frame has a ['colors'] column and every category has
    a lane, the categories of the batches are exactly those of the input. *)
Theorem batches_in_key_order (df : DataFrame X obj) (y : list (string * Y))
  (h : Y) (k : kw) :
  StronglySorted key_lt (map fst (emitted (run df y h k))) /\
  (lookup "colors" (others df) <> None ->
   (forall c, In c (chrom df) -> lookup c y <> None) ->
   forall c, In c (map fst (emitted (run df y h k))) <-> In c (chrom df)).
Proof.
  split.
  - rewrite run_emitted.
    destruct (laid_out_prefix (batch_of df y h k) (sorted_keys (chrom df)))
      as [post Hks].
    pose proof (sorted_keys_sorted (chrom df)) as Hs.
    rewrite Hks in Hs. exact (sorted_app_l _ _ Hs).
  - intros Hcol Hlanes c.
    destruct (layout_all_ok (batch_of df y h k) (sorted_keys (chrom df)))
      as (_ & Hp & Hb).
    { intros x Hx. apply batch_of_ok; [|exact Hcol].
      apply Hlanes. apply sorted_keys_In. exact Hx. }
    rewrite run_emitted, Hp, map_fst_combine
      by (eapply Forall2_length; eassumption).
    apply sorted_keys_In.
Qed.

(** The frame on the paths that restore it: a frame that has a ['width']
    column is handed back unchanged however the run ends; a frame without
    one is handed back unchanged, the synthesized column removed again, when
    the run completes; and the run completes, handing the frame back
    unchanged, whenever the frame has a ['colors'] column and every category
    has a lane. *)
Theorem frame_restored (df : DataFrame X obj) (y : list (string * Y))
  (h : Y) (k : kw) :
  (width df <> None -> w_df (snd (run df y h k)) = df) /\
  (width df = None -> fst (run df y h k) = Ok tt ->
   w_df (snd (run df y h k)) = df) /\
  (lookup "colors" (others df) <> None ->
   (forall c, In c (chrom df) -> lookup c y <> None) ->
   fst (run df y h k) = Ok tt /\ w_df (snd (run df y h k)) = df).
Proof.
  rewrite run_df. repeat split.
  - intros Hw. unfold with_width.
    destruct (width df); [|contradiction].
    destruct (fst (run df y h k)); reflexivity.
  - intros _ ->. reflexivity.
  - rewrite run_outcome.
    destruct (layout_all_ok (batch_of df y h k) (sorted_keys (chrom df)))
      as (Ho & _ & _); [|exact Ho].
    intros c Hc. apply batch_of_ok; [|assumption].
    match goal with Hl : forall c, In c (chrom df) -> _ |- _ => apply Hl end.
    apply sorted_keys_In. exact Hc.
  - rewrite run_outcome.
    destruct (layout_all_ok (batch_of df y h k) (sorted_keys (chrom df)))
      as (Ho & _ & _); [|rewrite Ho; reflexivity].
    intros c Hc. apply batch_of_ok; [|assumption].
    match goal with Hl : forall c, In c (chrom df) -> _ |- _ => apply Hl end.
    apply sorted_keys_In. exact Hc.
Qed.

(** C10 (colour field): the colours of every emitted batch are read from
    the column named ['colors']; on a frame with at least one record and no
    such column (whatever other columns it has, ['color'] included) the
    first iteration fails with a [KeyError] and nothing is yielded: the key
    is ['colors'] when the first category has a lane. *)
Theorem colors_field (df : DataFrame X obj) (y : list (string * Y)) (h : Y)
  (k : kw) :
  (forall pc, In pc (w_yielded (snd (run df y h k))) ->
     exists c cs, In (c, pc) (emitted (run df y h k)) /\
                  lookup "colors" (others df) = Some cs /\
                  facecolors pc = rows_of c (chrom df) cs) /\
  (lookup "colors" (others df) = None ->
   chrom df <> [] ->
   w_yielded (snd (run df y h k)) = [] /\
   exists c0,
     In c0 (chrom df) /\
     w_stdout (snd (run df y h k)) = [c0] /\
     fst (run df y h k) =
       Raise (KeyError (match lookup c0 y with
                        | Some _ => "colors"
                        | None => c0
                        end))).
Proof.
  split.
  - intros pc Hpc.
    destruct (yielded_emitted _ _ _ _ _ Hpc) as [c Hin].
    destruct (emitted_inv _ _ _ _ _ _ Hin) as (_ & y0 & cs & _ & Hc & E).
    exists c, cs. rewrite E at 2.
    repeat split; assumption.
  - intros Hcol Hne.
    rewrite run_outcome, run_yielded, run_stdout.
    destruct (sorted_keys (chrom df)) as [|c0 ks] eqn:E.
    + exfalso. destruct (chrom df) as [|a l] eqn:Ech; [congruence|].
      assert (Hin : In a (sorted_keys (a :: l)))
        by (apply sorted_keys_In; left; reflexivity).
      rewrite E in Hin. exact Hin.
    + assert (Hr : batch_of df y h k c0 =
                   Raise (KeyError (match lookup c0 y with
                                    | Some _ => "colors"
                                    | None => c0
                                    end))).
      { unfold batch_of. rewrite Hcol. destruct (lookup c0 y); reflexivity. }
      unfold batches, printed, outcome.
      rewrite (layout_cons_raise _ c0 ks _ Hr). simpl.
      split; [reflexivity|]. exists c0. repeat split.
      apply (proj1 (sorted_keys_In c0 (chrom df))).
      rewrite E. left. reflexivity.
Qed.

End Properties.

(** ** The claims at concrete inputs *)

Lemma lane_edges_witness :
  lookup "chr2" ex_y = Some 2%Z /\
  In ("chr2", ex_batch_chr2) (emitted (run ex_df ex_y 1%Z tt)) /\
  length (verts ex_batch_chr2) = length (records_xw ex_df "chr2") /\
  forall poly, In poly (verts ex_batch_chr2) ->
    map snd poly = [2; 3; 3; 2; 2]%Z.
Proof.
  split; [reflexivity|].
  split; [right; left; reflexivity|].
  exact (lane_edges ex_df ex_y 1%Z tt "chr2" 2%Z ex_batch_chr2 eq_refl
           (or_intror (or_introl eq_refl))).
Defined.

Lemma polygon_ring_witness :
  In ex_batch_chr1 (w_yielded (snd (run ex_df ex_y 1%Z tt))) /\
  nth_error (verts ex_batch_chr1) 0 =
    Some [(100, 0); (100, 1); (500, 1); (500, 0); (100, 0)]%Z /\
  exists c s w y0,
    In (c, ex_batch_chr1) (emitted (run ex_df ex_y 1%Z tt)) /\
    nth_error (records_xw ex_df c) 0 = Some (s, w) /\
    lookup c ex_y = Some y0 /\
    [(100, 0); (100, 1); (500, 1); (500, 0); (100, 0)]%Z =
    [(s, y0); (s, add y0 1); (add s w, add y0 1); (add s w, y0);
     (s, y0)]%Z.
Proof.
  split; [left; reflexivity|].
  split; [reflexivity|].
  exact (proj2 (proj2
    (polygon_ring ex_df ex_y 1%Z tt ex_batch_chr1 0
       [(100, 0); (100, 1); (500, 1); (500, 0); (100, 0)]%Z
       (or_introl eq_refl) eq_refl))).
Defined.


Lemma missing_lane_raises_witness :
  In "chr2" (chrom ex_df) /\
  lookup "chr2" ex_y_chr1 = None /\
  (exists key, fst (run ex_df ex_y_chr1 1%Z tt) = Raise (KeyError key)) /\
  ~ In "chr2" (map fst (emitted (run ex_df ex_y_chr1 1%Z tt))).
Proof.
  split; [right; left; reflexivity|].
  split; [reflexivity|].
  pose proof (missing_lane_raises ex_df ex_y_chr1 1%Z tt "chr2"
                (or_intror (or_introl eq_refl)) eq_refl) as W.
  split; [exact (proj1 (proj2 W))|exact (proj1 (proj2 (proj2 W)))].
Defined.

Lemma missing_lane_stops_layout_witness :
  lookup "colors" (others ex_df) <> None /\
  In "chr2" (chrom ex_df) /\
  lookup "chr2" ex_y_chr1 = None /\
  (forall c, In c (chrom ex_df) -> key_lt c "chr2" ->
             lookup c ex_y_chr1 <> None) /\
  fst (run ex_df ex_y_chr1 1%Z tt) = Raise (KeyError "chr2").
Proof.
  assert (H1 : lookup "colors" (others ex_df) <> None)
    by (simpl; discriminate).
  assert (H2 : forall c, In c (chrom ex_df) -> key_lt c "chr2" ->
                         lookup c ex_y_chr1 <> None).
  { intros c [<-|[<-|[]]] Hlt.
    - simpl. discriminate.
    - vm_compute in Hlt. discriminate. }
  split; [exact H1|].
  split; [right; left; reflexivity|].
  split; [reflexivity|].
  split; [exact H2|].
  exact (proj1 (missing_lane_stops_layout ex_df ex_y_chr1 1%Z tt "chr2"
                  H1 (or_intror (or_introl eq_refl)) eq_refl H2)).
Defined.

(** C5, as stated, fails: with a lane for chr2 only, the run on the two
    intervals raises [KeyError("chr1")] and lays out nothing, chr2 included. *)
Lemma silent_exclusion_fails : ~ silently_excludes ex_df ex_y_chr2 1%Z tt.
Proof.
  intros [Hok _]. vm_compute in Hok. discriminate.
Qed.



Lemma batch_order_witness :
  In ex_batch_unordered_chr2
     (w_yielded (snd (run ex_df_unordered ex_y_unordered 1%Z tt))) /\
  records_xw ex_df_unordered "chr2" = [(0, 30); (40, 50)]%Z /\
  exists c y0 cs,
    In (c, ex_batch_unordered_chr2)
       (emitted (run ex_df_unordered ex_y_unordered 1%Z tt)) /\
    lookup c ex_y_unordered = Some y0 /\
    lookup "colors" (others ex_df_unordered) = Some cs /\
    verts ex_batch_unordered_chr2 =
      map (fun xr => [(fst xr, y0); (fst xr, add y0 1);
                      (add (fst xr) (snd xr), add y0 1);
                      (add (fst xr) (snd xr), y0); (fst xr, y0)]%Z)
          (records_xw ex_df_unordered c) /\
    facecolors ex_batch_unordered_chr2 =
      rows_of c (chrom ex_df_unordered) cs /\
    length (facecolors ex_batch_unordered_chr2) =
      length (verts ex_batch_unordered_chr2).
Proof.
  assert (Hin : In ex_batch_unordered_chr2
                   (w_yielded
                      (snd (run ex_df_unordered ex_y_unordered 1%Z tt))))
    by (right; right; left; reflexivity).
  split; [exact Hin|]. split; [reflexivity|].
  destruct (batch_order ex_df_unordered ex_y_unordered 1%Z tt
              ex_batch_unordered_chr2 Hin)
    as (c & y0 & cs & He & Hy & Hc & Hv & Hf & Hl).
  exists c, y0, cs.
  split; [exact He|]. split; [exact Hy|]. split; [exact Hc|].
  split; [exact Hv|]. split; [exact Hf|exact (Hl eq_refl)].
Defined.

(** C8, as stated, fails: the categories are met in the order chr2, chr10,
    chr1, and the batches come in the order chr1, chr10, chr2. *)
Lemma first_seen_order_fails :
  map fst (emitted (run ex_df_unordered ex_y_unordered 1%Z tt)) <>
  first_seen (chrom ex_df_unordered).
Proof. vm_compute. discriminate. Qed.

Lemma batches_in_key_order_witness :
  lookup "colors" (others ex_df_unordered) <> None /\
  (forall c, In c (chrom ex_df_unordered) ->
             lookup c ex_y_unordered <> None) /\
  StronglySorted key_lt
    (map fst (emitted (run ex_df_unordered ex_y_unordered 1%Z tt))) /\
  forall c,
    In c (map fst (emitted (run ex_df_unordered ex_y_unordered 1%Z tt)))
    <-> In c (chrom ex_df_unordered).
Proof.
  assert (H1 : lookup "colors" (others ex_df_unordered) <> None)
    by (simpl; discriminate).
  assert (H2 : forall c, In c (chrom ex_df_unordered) ->
                         lookup c ex_y_unordered <> None)
    by (intros c [<-|[<-|[<-|[<-|[]]]]]; simpl; discriminate).
  split; [exact H1|]. split; [exact H2|].
  pose proof (batches_in_key_order ex_df_unordered ex_y_unordered 1%Z tt)
    as [Hs Hm].
  split; [exact Hs|exact (Hm H1 H2)].
Defined.

Lemma frame_restored_witness :
  width ex_df = None /\
  fst (run ex_df ex_y 1%Z tt) = Ok tt /\
  w_yielded (snd (run ex_df ex_y 1%Z tt)) = [ex_batch_chr1; ex_batch_chr2] /\
  w_df (snd (run ex_df ex_y 1%Z tt)) = ex_df /\
  width ex_df_width <> None /\
  w_df (snd (run ex_df_width ex_y_chr1 1%Z tt)) = ex_df_width.
Proof.
  assert (H1 : width ex_df_width <> None) by (simpl; discriminate).
  split; [reflexivity|]. split; [reflexivity|]. split; [reflexivity|].
  split.
  - exact (proj1 (proj2 (frame_restored ex_df ex_y 1%Z tt)) eq_refl eq_refl).
  - split; [exact H1|].
    exact (proj1 (frame_restored ex_df_width ex_y_chr1 1%Z tt) H1).
Defined.

(** C9 (frame effect), at the specification's failing example: the frame
    has no ['width'] column on entry; the run raises [KeyError("chr2")] at
    line 62, before lines 74-75 are reached, and the caller's frame is left
    with the synthesized column, so it is not what it was on entry. *)
Example frame_after_key_error :
  width ex_df = None /\
  fst (run ex_df ex_y_chr1 1%Z tt) = Raise (KeyError "chr2") /\
  w_df (snd (run ex_df ex_y_chr1 1%Z tt)) = ex_df_width /\
  width (w_df (snd (run ex_df ex_y_chr1 1%Z tt))) = Some [400; 300]%Z /\
  w_df (snd (run ex_df ex_y_chr1 1%Z tt)) <> ex_df.
Proof.
  split; [reflexivity|]. split; [reflexivity|]. split; [reflexivity|].
  split; [reflexivity|]. vm_compute. discriminate.
Qed.

Lemma colors_field_witness :
  lookup "colors" (others ex_df_color) = None /\
  chrom ex_df_color <> [] /\
  w_yielded (snd (run ex_df_color ex_y 1%Z tt)) = [] /\
  exists c0,
    In c0 (chrom ex_df_color) /\
    w_stdout (snd (run ex_df_color ex_y 1%Z tt)) = [c0] /\
    fst (run ex_df_color ex_y 1%Z tt) =
      Raise (KeyError (match lookup c0 ex_y with
                       | Some _ => "colors"
                       | None => c0
                       end)).
Proof.
  assert (H2 : chrom ex_df_color <> []) by (simpl; discriminate).
  split; [reflexivity|]. split; [exact H2|].
  exact (proj2 (colors_field ex_df_color ex_y 1%Z tt) eq_refl H2).
Defined.

(** ** Further properties of the engine *)

Section EngineProperties.
Context {X Y obj kw : Type} {NX : Num X} {NY : Num Y}.

Lemma layout_ext_in (f g : string -> result (PolyCollection X Y obj kw))
  (ks : list string) :
  (forall c, In c ks -> f c = g c) -> layout f ks = layout g ks.
Proof.
  induction ks as [|c ks IH]; intros E; simpl; [reflexivity|].
  rewrite (E c (or_introl eq_refl)), IH; [reflexivity|].
  intros x Hx. apply E. right. exact Hx.
Qed.

Lemma chromosome_collections_spec (y : list (string * Y)) (h : Y) (k : kw)
  (w : world X Y obj kw) :
  chromosome_collections y h k w =
  let '(p, b, r) :=
    layout (batch_of (w_df w) y h k) (sorted_keys (chrom (w_df w))) in
  (r, mkWorld (match r with Ok _ => w_df w | Raise _ => with_width (w_df w) end)
              (w_stdout w ++ p) (w_yielded w ++ b)).
Proof.
  unfold chromosome_collections, groupby_chrom.
  destruct w as [[ch st en [wd|] ot] so yl];
    unfold bind, get_df, put_df, ret; simpl.
  - rewrite (for_each_layout (mkDataFrame ch st en (Some wd) ot) wd y h k
               eq_refl).
    simpl. destruct (layout _ _) as [[p b] [[]|e]]; reflexivity.
  - change (set_width (mkDataFrame ch st en None ot) (col_sub en st))
      with (with_width (mkDataFrame ch st en None ot)).
    rewrite (for_each_layout (with_width (mkDataFrame ch st en None ot))
               (col_sub en st) y h k eq_refl).
    rewrite (layout_ext _ (batch_of (mkDataFrame ch st en None ot) y h k))
      by (intros c; apply batch_of_with_width).
    simpl. destruct (layout _ _) as [[p b] [[]|e]]; reflexivity.
Qed.

Lemma appends_to_world (y : list (string * Y)) (h : Y) (k : kw)
  (w : world X Y obj kw) :
  chromosome_collections y h k w =
  (fst (run (w_df w) y h k),
   mkWorld (w_df (snd (run (w_df w) y h k)))
           (w_stdout w ++ w_stdout (snd (run (w_df w) y h k)))
           (w_yielded w ++ w_yielded (snd (run (w_df w) y h k)))).
Proof.
  rewrite chromosome_collections_spec, run_spec.
  destruct (layout _ _) as [[p b] r]. reflexivity.
Qed.

(** A frame without rows: nothing is printed or yielded, the run ends
    normally and the frame is handed back as it came, whatever its columns
    and whatever the lane map. *)
Theorem empty_frame (df : DataFrame X obj) (y : list (string * Y)) (h : Y)
  (k : kw) :
  chrom df = [] -> run df y h k = (Ok tt, mkWorld df [] []).
Proof. intros E. rewrite run_spec, E. reflexivity. Qed.

(** The keyword arguments reach every batch untouched. *)
Theorem kwargs_passed_through (df : DataFrame X obj) (y : list (string * Y))
  (h : Y) (k : kw) (pc : PolyCollection X Y obj kw) :
  In pc (w_yielded (snd (run df y h k))) -> kwargs pc = k.
Proof.
  intros Hpc. destruct (yielded_emitted _ _ _ _ _ Hpc) as [c Hin].
  destruct (emitted_inv _ _ _ _ _ _ Hin) as (_ & y0 & cs & _ & _ & ->).
  reflexivity.
Qed.

(** Only the lanes of the categories of the frame matter: two lane maps
    that agree on them give the same run. *)
Theorem lanes_of_absent_categories_ignored (df : DataFrame X obj)
  (y y' : list (string * Y)) (h : Y) (k : kw) :
  (forall c, In c (chrom df) -> lookup c y = lookup c y') ->
  run df y h k = run df y' h k.
Proof.
  intros E. rewrite !run_spec.
  rewrite (layout_ext_in (batch_of df y h k) (batch_of df y' h k));
    [reflexivity|].
  intros c Hc. unfold batch_of. rewrite (E c); [reflexivity|].
  apply sorted_keys_In. exact Hc.
Qed.

(** When the frame has a ['width'] column the ['end'] column is never
    read: replacing it changes nothing in what is printed, yielded or
    raised. *)
Theorem end_unused_with_width (df : DataFrame X obj) (en : list X)
  (w : list X) (y : list (string * Y)) (h : Y) (k : kw) :
  width df = Some w ->
  let df' := mkDataFrame (chrom df) (start df) en (Some w) (others df) in
  fst (run df y h k) = fst (run df' y h k) /\
  w_stdout (snd (run df y h k)) = w_stdout (snd (run df' y h k)) /\
  w_yielded (snd (run df y h k)) = w_yielded (snd (run df' y h k)).
Proof.
  intros Hw df'.
  rewrite !run_outcome, !run_stdout, !run_yielded.
  unfold outcome, printed, batches.
  rewrite (layout_ext (batch_of df y h k) (batch_of df' y h k)).
  - repeat split.
  - intros c. unfold batch_of, records_xw, widths, df'. simpl.
    rewrite Hw. reflexivity.
Qed.

(** The frame handed back can be laid out again with the same result,
    whether the first run completed or raised. *)
Theorem rerun_same (df : DataFrame X obj) (y : list (string * Y)) (h : Y)
  (k : kw) :
  let df1 := w_df (snd (run df y h k)) in
  fst (run df1 y h k) = fst (run df y h k) /\
  w_stdout (snd (run df1 y h k)) = w_stdout (snd (run df y h k)) /\
  w_yielded (snd (run df1 y h k)) = w_yielded (snd (run df y h k)).
Proof.
  cbv zeta. rewrite run_df.
  destruct (fst (run df y h k)) as [u|e] eqn:E.
  - rewrite E. repeat split.
  - assert (Hc : chrom (with_width df) = chrom df)
      by (unfold with_width; destruct (width df); reflexivity).
    rewrite !run_outcome, !run_stdout, !run_yielded, Hc.
    rewrite run_outcome in E. unfold outcome, printed, batches in *.
    rewrite (layout_ext _ _ (sorted_keys (chrom df))
               (batch_of_with_width df y h k)).
    repeat split. exact E.
Qed.

(** The printed lines are category names in strictly ascending order, one
    per yielded batch, plus the line of the iteration that raised. *)
Theorem printed_lines (df : DataFrame X obj) (y : list (string * Y)) (h : Y)
  (k : kw) :
  StronglySorted key_lt (w_stdout (snd (run df y h k))) /\
  (forall c, In c (w_stdout (snd (run df y h k))) -> In c (chrom df)) /\
  length (w_stdout (snd (run df y h k))) =
    match fst (run df y h k) with
    | Ok _ => length (w_yielded (snd (run df y h k)))
    | Raise _ => S (length (w_yielded (snd (run df y h k))))
    end.
Proof.
  rewrite run_stdout, run_yielded, run_outcome.
  destruct (layout_shape (batch_of df y h k) (sorted_keys (chrom df)))
    as (pre & post & Hks & Hall & Hp & Hend).
  pose proof (sorted_keys_sorted (chrom df)) as Hs.
  assert (Hpre : exists tl, sorted_keys (chrom df) =
                            printed (batch_of df y h k)
                                    (sorted_keys (chrom df)) ++ tl).
  { rewrite Hp. destruct post as [|c post]; simpl.
    - exists []. rewrite !app_nil_r. rewrite app_nil_r in Hks. exact Hks.
    - exists post. rewrite <- app_assoc. exact Hks. }
  destruct Hpre as [tl Htl].
  repeat split.
  - rewrite Htl in Hs. exact (sorted_app_l _ _ Hs).
  - intros c Hc. apply (proj1 (sorted_keys_In c (chrom df))).
    rewrite Htl. apply in_or_app. left. exact Hc.
  - rewrite Hp, length_app, <- (Forall2_length Hall).
    destruct Hend as [[-> ->]|(c & post' & e & -> & _ & ->)]; simpl; lia.
Qed.

End EngineProperties.

(** ** Horizontal extent on integer columns *)

Section Span.
Context {X Y obj kw : Type} {NX : Num X} {NY : Num Y}.

Lemma rows_of_In {A : Type} (c : string) (keys : list string)
  (col : list A) (a : A) :
  In a (rows_of c keys col) -> In a col.
Proof.
  unfold rows_of. intros Hin. apply in_map_iff in Hin.
  destruct Hin as ([k v] & <- & Hin). apply filter_In in Hin.
  destruct Hin as [Hin _]. exact (in_combine_r _ _ _ _ Hin).
Qed.

(** Whenever adding back the difference gives the end, the rectangles of a
    frame without ['width'] run from [start] to [end]. *)
Lemma span_start_end (df : DataFrame X obj) (y : list (string * Y)) (h : Y)
  (k : kw) :
  width df = None ->
  (forall s e, In e (end_ df) -> add s (sub e s) = e) ->
  forall pc j poly,
    In pc (w_yielded (snd (run df y h k))) ->
    nth_error (verts pc) j = Some poly ->
    exists c s e,
      In (c, pc) (emitted (run df y h k)) /\
      nth_error (records_se df c) j = Some (s, e) /\
      map fst poly = [s; s; e; e; s].
Proof.
  intros Hw Hadd pc j poly Hpc Hj.
  destruct (yielded_emitted _ _ _ _ _ Hpc) as [c Hin].
  destruct (emitted_inv _ _ _ _ _ _ Hin) as (_ & y0 & cs & _ & _ & E).
  rewrite E in Hj. simpl in Hj. unfold records_xw, widths in Hj.
  rewrite Hw in Hj.
  rewrite combine_col_sub, rows_of_map, !nth_error_map in Hj.
  fold (records_se df c) in Hj.
  destruct (nth_error (records_se df c) j) as [[s e]|] eqn:Ej;
    [|discriminate].
  simpl in Hj. inversion Hj; subst poly.
  exists c, s, e. split; [exact Hin|]. split; [exact Ej|].
  assert (He : In e (end_ df)).
  { apply nth_error_In in Ej. apply rows_of_In in Ej.
    exact (in_combine_r _ _ _ _ Ej). }
  simpl. rewrite (Hadd s e He). reflexivity.
Qed.

End Span.

Lemma wrap64_add_sub (s e : int64) : in_int64 e -> add s (sub e s) = e.
Proof.
  destruct s as [zs], e as [ze]. unfold in_int64. simpl. intros He.
  f_equal. unfold wrap64.
  replace (zs + ((ze - zs + 2 ^ 63) mod 2 ^ 64 - 2 ^ 63) + 2 ^ 63)%Z
    with (zs + (ze - zs + 2 ^ 63) mod 2 ^ 64)%Z by lia.
  rewrite Zplus_mod_idemp_r.
  replace (zs + (ze - zs + 2 ^ 63))%Z with (ze + 2 ^ 63)%Z by lia.
  rewrite Z.mod_small by lia. lia.
Qed.

(** On unbounded integer columns (Python ints) every rectangle of a frame
    without ['width'] runs horizontally from its record's [start] to its
    record's [end]. *)
Theorem span_on_integers {Y obj kw : Type} {NY : Num Y}
  (df : DataFrame Z obj) (y : list (string * Y)) (h : Y) (k : kw)
  (pc : PolyCollection Z Y obj kw) (j : nat) (poly : list (Z * Y)) :
  width df = None ->
  In pc (w_yielded (snd (run df y h k))) ->
  nth_error (verts pc) j = Some poly ->
  exists c s e,
    In (c, pc) (emitted (run df y h k)) /\
    nth_error (records_se df c) j = Some (s, e) /\
    map fst poly = [s; s; e; e; s].
Proof.
  intros Hw Hpc Hj.
  apply (span_start_end df y h k Hw); try assumption.
  intros s e _. simpl. lia.
Qed.

(** On [int64] columns, whose arithmetic wraps around, the same holds as
    soon as the [end] cells are 64-bit values: the right edge is [end] even
    when [end - start] overflows. *)
Theorem span_on_int64 {Y obj kw : Type} {NY : Num Y}
  (df : DataFrame int64 obj) (y : list (string * Y)) (h : Y) (k : kw)
  (pc : PolyCollection int64 Y obj kw) (j : nat)
  (poly : list (int64 * Y)) :
  width df = None ->
  Forall in_int64 (end_ df) ->
  In pc (w_yielded (snd (run df y h k))) ->
  nth_error (verts pc) j = Some poly ->
  exists c s e,
    In (c, pc) (emitted (run df y h k)) /\
    nth_error (records_se df c) j = Some (s, e) /\
    map fst poly = [s; s; e; e; s].
Proof.
  intros Hw Hr Hpc Hj.
  apply (span_start_end df y h k Hw); try assumption.
  intros s e He. apply wrap64_add_sub.
  rewrite Forall_forall in Hr. apply Hr. exact He.
Qed.

(** ** The lanes built by the script *)

Lemma lookup_dict_set_same {V : Type} (k : string) (v : V)
  (d : list (string * V)) :
  lookup k (dict_set k v d) = Some v.
Proof.
  induction d as [|[k' v'] d IH]; simpl.
  - rewrite String.eqb_refl. reflexivity.
  - destruct (String.eqb k k') eqn:E; simpl.
    + rewrite String.eqb_refl. reflexivity.
    + rewrite E. exact IH.
Qed.

Lemma lookup_dict_set_other {V : Type} (k k' : string) (v : V)
  (d : list (string * V)) :
  k' <> k -> lookup k' (dict_set k v d) = lookup k' d.
Proof.
  intros Hne. induction d as [|[k0 v0] d IH]; simpl.
  - destruct (String.eqb_spec k' k); [contradiction|reflexivity].
  - destruct (String.eqb_spec k k0) as [->|Hk]; simpl.
    + destruct (String.eqb_spec k' k0); [contradiction|reflexivity].
    + destruct (String.eqb k' k0); [reflexivity|exact IH].
Qed.

Lemma first_occurrence (c : string) (l : list string) :
  In c l -> exists before after, l = before ++ c :: after /\ ~ In c before.
Proof.
  induction l as [|a l IH]; intros Hin; [contradiction|].
  destruct (string_dec a c) as [->|Hne].
  - exists [], l. split; [reflexivity|intros []].
  - destruct Hin as [E|Hin]; [contradiction|].
    destruct (IH Hin) as (before & after & -> & Hb).
    exists (a :: before), after. split; [reflexivity|].
    intros [E|Hc]; [contradiction|exact (Hb Hc)].
Qed.

Lemma nth_error_middle {A : Type} (l1 l2 : list A) (a : A) :
  nth_error (l1 ++ a :: l2) (length l1) = Some a.
Proof. induction l1 as [|x l1 IH]; simpl; [reflexivity|exact IH]. Qed.

Lemma lookup_dict_set_iff {V : Type} (c a : string) (v : V)
  (d : list (string * V)) :
  lookup c (dict_set a v d) <> None <-> a = c \/ lookup c d <> None.
Proof.
  destruct (string_dec c a) as [->|Hne].
  - rewrite lookup_dict_set_same. split; intros _.
    + left. reflexivity.
    + discriminate.
  - rewrite lookup_dict_set_other by exact Hne. split.
    + intros H. right. exact H.
    + intros [E|H]; [symmetry in E; contradiction|exact H].
Qed.

Lemma false_or (A : Prop) : (False \/ A) <-> A.
Proof. split; [intros [[]|H]; exact H|intros H; right; exact H]. Qed.

Lemma or_shuffle (A B C : Prop) : (B \/ (A \/ C)) <-> ((A \/ B) \/ C).
Proof.
  split.
  - intros [H|[H|H]]; [left; right|left; left|right]; exact H.
  - intros [[H|H]|H]; [right; left|left|right; right]; exact H.
Qed.

Lemma or_none {V : Type} (A : Prop) : (A \/ @None V <> None) <-> A.
Proof.
  split; [intros [H|H]; [exact H|contradiction]|intros H; left; exact H].
Qed.

Section LaneProperties.
Context {F : Type} {FF : Float F}.
Variables (height spacing : Z) (g_height g_padding : F).

Local Abbreviation step := (lane_step height spacing g_height g_padding).

Local Abbreviation center y0 :=
  (fadd (of_int y0) (fdiv (of_int height) (of_decimal 2 0))).

Local Abbreviation gene y0 := (fsub (fsub (of_int y0) g_height) g_padding).

Lemma fold_untouched (c : string) (l : list string) (st : lanes F) :
  ~ In c l ->
  lookup c (chrom_ybase (fold_left step l st)) = lookup c (chrom_ybase st) /\
  lookup c (gene_ybase (fold_left step l st)) = lookup c (gene_ybase st) /\
  lookup c (chrom_centers (fold_left step l st)) =
    lookup c (chrom_centers st).
Proof.
  revert st. induction l as [|a l IH]; intros st Hn; simpl.
  - repeat split.
  - assert (Hne : c <> a) by (intros ->; apply Hn; left; reflexivity).
    destruct (IH (step st a)) as (H1 & H2 & H3).
    { intros Hin. apply Hn. right. exact Hin. }
    rewrite H1, H2, H3. unfold lane_step. simpl.
    rewrite !lookup_dict_set_other by exact Hne. repeat split.
Qed.

Lemma fold_ybase (l : list string) (st : lanes F) :
  ybase (fold_left step l st) =
  (ybase st + Z.of_nat (length l) * (height + spacing))%Z.
Proof.
  revert st. induction l as [|a l IH]; intros st.
  - simpl. lia.
  - cbn [fold_left length]. rewrite IH. unfold lane_step. simpl ybase.
    lia.
Qed.

Lemma fold_last_write (c : string) (l1 l2 : list string) (st : lanes F) :
  ~ In c l2 ->
  let y0 := (ybase st + Z.of_nat (length l1) * (height + spacing))%Z in
  lookup c (chrom_ybase (fold_left step (l1 ++ c :: l2) st)) = Some y0 /\
  lookup c (gene_ybase (fold_left step (l1 ++ c :: l2) st)) =
    Some (gene y0) /\
  lookup c (chrom_centers (fold_left step (l1 ++ c :: l2) st)) =
    Some (center y0).
Proof.
  intros Hn y0. rewrite fold_left_app. cbn [fold_left].
  destruct (fold_untouched c l2 (step (fold_left step l1 st) c) Hn)
    as (H1 & H2 & H3).
  rewrite H1, H2, H3. unfold lane_step at 1 3 5. simpl.
  rewrite !lookup_dict_set_same.
  rewrite fold_ybase. repeat split.
Qed.

Lemma fold_keys (c : string) (l : list string) (st : lanes F) :
  (lookup c (chrom_ybase (fold_left step l st)) <> None <->
   In c l \/ lookup c (chrom_ybase st) <> None) /\
  (lookup c (gene_ybase (fold_left step l st)) <> None <->
   In c l \/ lookup c (gene_ybase st) <> None) /\
  (lookup c (chrom_centers (fold_left step l st)) <> None <->
   In c l \/ lookup c (chrom_centers st) <> None).
Proof.
  revert st. induction l as [|a l IH]; intros st.
  - cbn [fold_left In]. split; [|split]; symmetry; apply false_or.
  - cbn [fold_left In]. destruct (IH (step st a)) as (H1 & H2 & H3).
    rewrite H1, H2, H3. unfold lane_step.
    cbn [chrom_ybase gene_ybase chrom_centers].
    rewrite !lookup_dict_set_iff.
    split; [|split]; apply or_shuffle.
Qed.

Lemma build_lanes_keys (names : list string) (c : string) :
  let L := build_lanes height spacing g_height g_padding names in
  (lookup c (chrom_ybase L) <> None <-> In c names) /\
  (lookup c (gene_ybase L) <> None <-> In c names) /\
  (lookup c (chrom_centers L) <> None <-> In c names).
Proof.
  cbv zeta. unfold build_lanes.
  destruct (fold_keys c (rev names) (mkLanes 0 [] [] [])) as (H1 & H2 & H3).
  rewrite H1, H2, H3. cbn [chrom_ybase gene_ybase chrom_centers lookup].
  rewrite <- in_rev.
  split; [|split]; apply or_none.
Qed.

Lemma build_lanes_position (before after : list string) (c : string) :
  ~ In c before ->
  let L := build_lanes height spacing g_height g_padding
                       (before ++ c :: after) in
  let y0 := (Z.of_nat (length after) * (height + spacing))%Z in
  lookup c (chrom_ybase L) = Some y0 /\
  lookup c (gene_ybase L) =
    Some (fsub (fsub (of_int y0) g_height) g_padding) /\
  lookup c (chrom_centers L) =
    Some (fadd (of_int y0) (fdiv (of_int height) (of_decimal 2 0))).
Proof.
  intros Hn. cbv zeta. unfold build_lanes.
  rewrite rev_app_distr. simpl rev. rewrite <- app_assoc. simpl app.
  assert (Hn' : ~ In c (rev before)) by (rewrite <- in_rev; exact Hn).
  destruct (fold_last_write c (rev after) (rev before) (mkLanes 0 [] [] [])
              Hn') as (H1 & H2 & H3).
  rewrite H1, H2, H3. simpl ybase. rewrite length_rev.
  repeat split.
Qed.

(** The three dicts built by the loop have exactly the names of the list
    as keys. *)
Theorem lane_keys (names : list string) (c : string) :
  let L := build_lanes height spacing g_height g_padding names in
  (lookup c (chrom_ybase L) <> None <-> In c names) /\
  (lookup c (gene_ybase L) <> None <-> In c names) /\
  (lookup c (chrom_centers L) <> None <-> In c names).
Proof. exact (build_lanes_keys names c). Qed.

(** The lane of a name is counted from the end of the list: if [after] is
    what follows the first occurrence of [c], the lane base of [c] is
    [len(after) * (height + spacing)], its centre is that base plus
    [height / 2.] and its gene track base is that base minus the gene
    track height and padding. *)
Theorem lane_position (before after : list string) (c : string) :
  ~ In c before ->
  let L := build_lanes height spacing g_height g_padding
                       (before ++ c :: after) in
  let y0 := (Z.of_nat (length after) * (height + spacing))%Z in
  lookup c (chrom_ybase L) = Some y0 /\
  lookup c (gene_ybase L) =
    Some (fsub (fsub (of_int y0) g_height) g_padding) /\
  lookup c (chrom_centers L) =
    Some (fadd (of_int y0) (fdiv (of_int height) (of_decimal 2 0))).
Proof. exact (build_lanes_position before after c). Qed.

(** Lanes of different names do not overlap when neither the height nor
    the spacing is negative, and they do not even touch when the spacing is
    positive. *)
Theorem lanes_disjoint (names : list string) (c1 c2 : string) (y1 y2 : Z) :
  (0 <= height)%Z -> (0 <= spacing)%Z ->
  c1 <> c2 ->
  let L := build_lanes height spacing g_height g_padding names in
  lookup c1 (chrom_ybase L) = Some y1 ->
  lookup c2 (chrom_ybase L) = Some y2 ->
  (y1 + height <= y2 \/ y2 + height <= y1)%Z /\
  ((0 < spacing)%Z -> (y1 + height < y2 \/ y2 + height < y1)%Z).
Proof.
  intros Hh Hs Hne L Hy1 Hy2.
  assert (Hin1 : In c1 names)
    by (apply (proj1 (build_lanes_keys names c1)); fold L; congruence).
  assert (Hin2 : In c2 names)
    by (apply (proj1 (build_lanes_keys names c2)); fold L; congruence).
  destruct (first_occurrence c1 names Hin1) as (b1 & a1 & E1 & Hb1).
  destruct (first_occurrence c2 names Hin2) as (b2 & a2 & E2 & Hb2).
  pose proof (proj1 (build_lanes_position b1 a1 c1 Hb1)) as P1.
  pose proof (proj1 (build_lanes_position b2 a2 c2 Hb2)) as P2.
  cbv zeta in P1, P2. rewrite <- E1 in P1. rewrite <- E2 in P2.
  fold L in P1, P2.
  assert (y1 = Z.of_nat (length a1) * (height + spacing))%Z by congruence.
  assert (y2 = Z.of_nat (length a2) * (height + spacing))%Z by congruence.
  assert (Hlen : length a1 <> length a2).
  { intros El.
    assert (Hb : length b1 = length b2).
    { pose proof (f_equal (@length string) E1) as L1.
      pose proof (f_equal (@length string) E2) as L2.
      rewrite length_app in L1, L2. simpl in L1, L2. lia. }
    pose proof (nth_error_middle b1 a1 c1) as N1.
    pose proof (nth_error_middle b2 a2 c2) as N2.
    rewrite <- E1 in N1. rewrite <- E2 in N2. rewrite Hb in N1.
    congruence. }
  subst y1 y2. split; [nia|intros Hpos; nia].
Qed.

End LaneProperties.

(** ** The whitelist filter and the colours *)

Section ScriptProperties.
Context {X obj F : Type} {NX : Num X} {FF : Float F}.

Lemma isin_In (names : list string) (x : string) :
  isin names x = true <-> In x names.
Proof.
  unfold isin. rewrite existsb_exists. split.
  - intros (z & Hz & E). apply String.eqb_eq in E. subst z. exact Hz.
  - intros Hx. exists x. split; [exact Hx|apply String.eqb_refl].
Qed.

Lemma take_rows_map_filter {A : Type} (p : A -> bool) (l : list A) :
  take_rows (map p l) l = filter p l.
Proof.
  induction l as [|a l IH]; simpl; [reflexivity|].
  destruct (p a); rewrite IH; reflexivity.
Qed.

Lemma rows_of_take_rows {A : Type} (p : string -> bool) (c : string)
  (keys : list string) (col : list A) :
  p c = true ->
  rows_of c (take_rows (map p keys) keys) (take_rows (map p keys) col) =
  rows_of c keys col.
Proof.
  intros Hc. unfold rows_of. revert col.
  induction keys as [|a keys IH]; intros [|v col]; simpl; try reflexivity.
  - destruct (p a); simpl; [reflexivity|].
    destruct (take_rows (map p keys) keys); reflexivity.
  - destruct (p a) eqn:Ea; simpl.
    + destruct (String.eqb c a); simpl; rewrite IH; reflexivity.
    + destruct (String.eqb_spec c a) as [->|_]; [congruence|]. apply IH.
Qed.



(** The filter of line 120 keeps exactly the records whose category is in
    the list: the categories left are those of the table that are listed,
    the records of a listed category keep their cells and their order in
    every column. *)
Theorem filter_keeps_listed (names : list string) (df : DataFrame X obj) :
  let fdf := filter_chromosomes names df in
  chrom fdf = filter (isin names) (chrom df) /\
  (forall c, In c (chrom fdf) <-> In c (chrom df) /\ In c names) /\
  (forall c, In c names ->
     rows_of c (chrom fdf) (start fdf) = rows_of c (chrom df) (start df) /\
     rows_of c (chrom fdf) (end_ fdf) = rows_of c (chrom df) (end_ df) /\
     forall name col, lookup name (others df) = Some col ->
       exists col', lookup name (others fdf) = Some col' /\
                    rows_of c (chrom fdf) col' = rows_of c (chrom df) col).
Proof.
  cbv zeta. unfold filter_chromosomes, select_rows. simpl.
  split; [apply take_rows_map_filter|]. split.
  - intros c. rewrite take_rows_map_filter, filter_In, isin_In. reflexivity.
  - intros c Hc. apply isin_In in Hc.
    split; [apply rows_of_take_rows; exact Hc|].
    split; [apply rows_of_take_rows; exact Hc|].
    intros name col Hl. rewrite lookup_map_cols, Hl. simpl.
    eexists. split; [reflexivity|]. apply rows_of_take_rows. exact Hc.
Qed.



Lemma list_comp_ok {A B : Type} (f : A -> sresult B) (g : A -> B)
  (l : list A) :
  (forall a, In a l -> f a = SOk (g a)) -> list_comp f l = SOk (map g l).
Proof.
  induction l as [|a l IH]; intros E; simpl; [reflexivity|].
  rewrite (E a (or_introl eq_refl)), IH; [reflexivity|].
  intros x Hx. apply E. right. exact Hx.
Qed.

Lemma list_comp_Forall2 {A B : Type} (f : A -> sresult B) (l : list A)
  (bs : list B) :
  list_comp f l = SOk bs -> Forall2 (fun a b => f a = SOk b) l bs.
Proof.
  revert bs. induction l as [|a l IH]; intros bs; simpl.
  - intros E. inversion E. constructor.
  - destruct (f a) as [b|e] eqn:Ea; [|discriminate].
    destruct (list_comp f l) as [bs'|e]; [|discriminate].
    intros E. inversion E; subst. constructor; [exact Ea|].
    apply IH. reflexivity.
Qed.

Lemma cycle_colors_total (paired_cm : list obj) (n : nat) :
  paired_cm <> [] ->
  exists cs,
    cycle_colors paired_cm n = SOk cs /\
    length cs = n /\
    forall i, i < n ->
      nth_error cs i = nth_error paired_cm (i mod length paired_cm).
Proof.
  - intros Hne. destruct paired_cm as [|d pal]; [contradiction|].
    set (g := fun i => nth (i mod length (d :: pal)) (d :: pal) d).
    exists (map g (seq 0 n)).
    assert (Hb : forall i, i mod length (d :: pal) < length (d :: pal))
      by (intros i; apply Nat.mod_upper_bound; discriminate).
    assert (Hpick : forall i, pick_color (d :: pal) i = SOk (g i)).
    { intros i. unfold pick_color, g.
      pose proof (nth_error_nth' (d :: pal) d (Hb i)) as E.
      cbn [length] in *. rewrite E. reflexivity. }
    split; [apply list_comp_ok; intros i _; apply Hpick|].
    split; [rewrite length_map; apply length_seq|].
    intros i Hi. rewrite nth_error_map, nth_error_seq.
    destruct (Nat.ltb_spec i n) as [_|Hge]; [|lia]. simpl.
    unfold g. symmetry. apply nth_error_nth'. apply Hb.
Qed.

(** The colour list of line 140: with a palette that is not empty it never
    fails, has one colour per row, and its [i]-th colour is the palette's
    colour number [i mod len(palette)]; with an empty palette it is empty
    for a frame without rows and raises [ZeroDivisionError] otherwise. *)
Theorem cycle_colors_spec (paired_cm : list obj) (n : nat) :
  (paired_cm <> [] ->
   exists cs,
     cycle_colors paired_cm n = SOk cs /\
     length cs = n /\
     forall i, i < n ->
       nth_error cs i = nth_error paired_cm (i mod length paired_cm)) /\
  (paired_cm = [] ->
   cycle_colors paired_cm n =
   match n with 0 => SOk [] | S _ => SRaise ZeroDivisionError end).
Proof.
  split; [apply cycle_colors_total|].
  intros ->. destruct n; reflexivity.
Qed.

End ScriptProperties.

(** ** The script as a whole *)

Section PlotProperties.
Context {X obj F : Type} {NX : Num X} {FF : Float F}.
Variables (height spacing : Z) (g_height g_padding : F).

Local Abbreviation lanes_of names :=
  (build_lanes height spacing g_height g_padding names).







(** Each tick is the lane base of its name plus half the lane height: the
    ticks come in the order of the names, one per name. *)
Theorem ticks_at_lane_centres (names : list string)
  (table : DataFrame X obj) (paired_cm : list obj)
  (st : script_state X obj F) :
  plot names height spacing g_height g_padding table paired_cm = SOk st ->
  Forall2
    (fun name tick =>
       exists y0,
         lookup name (chrom_ybase (lanes_of names)) = Some y0 /\
         tick = fadd (of_int y0) (fdiv (of_int height) (of_decimal 2 0)))
    names (yticks (fig st)).
Proof.
  unfold plot.
  destruct (prepare names paired_cm table) as [ideo0|e]; [|discriminate].
  destruct (chromosome_collections _ _ _ _) as [[u|e] w]; [|discriminate].
  destruct (list_comp _ names) as [ticks|e] eqn:Et; [|discriminate].
  intros E. inversion E; subst st. simpl.
  apply list_comp_Forall2 in Et.
  eapply Forall2_impl; [|exact Et].
  intros name tick Hg. unfold sgetitem in Hg.
  destruct (lookup name (chrom_centers (lanes_of names))) as [t|] eqn:El;
    [|discriminate].
  inversion Hg; subst t.
  assert (Hin : In name names).
  { apply (proj2 (proj2 (build_lanes_keys height spacing g_height g_padding
                           names name))).
    rewrite El. discriminate. }
  destruct (first_occurrence name names Hin) as (b & a & Eb & Hb).
  destruct (build_lanes_position height spacing g_height g_padding b a name
              Hb) as (P1 & _ & P3).
  rewrite <- Eb in P1, P3.
  eexists. split; [exact P1|]. congruence.
Qed.

(** Every polygon drawn sits in the lane of a listed name: its
    y-coordinates are the lane base [len(after) * (height + spacing)] of
    the name and that base plus [height]. *)
Theorem polygons_in_lanes (names : list string) (table : DataFrame X obj)
  (paired_cm : list obj) (st : script_state X obj F)
  (pc : PolyCollection X Z obj (list (string * obj)))
  (poly : list (X * Z)) :
  plot names height spacing g_height g_padding table paired_cm = SOk st ->
  In pc (collections (fig st)) ->
  In poly (verts pc) ->
  exists c before after,
    names = before ++ c :: after /\ ~ In c before /\
    let y0 := (Z.of_nat (length after) * (height + spacing))%Z in
    map snd poly =
      [y0; y0 + height; y0 + height; y0; y0]%Z.
Proof.
  unfold plot.
  destruct (prepare names paired_cm table) as [ideo0|e]; [|discriminate].
  rewrite appends_to_world. cbn [w_df w_stdout w_yielded].
  destruct (fst (run ideo0 _ _ _)) as [u|e]; [|discriminate].
  destruct (list_comp _ names) as [ticks|e]; [|discriminate].
  intros E. inversion E; subst st. cbn. intros Hpc Hpoly.
  destruct (yielded_emitted _ _ _ _ _ Hpc) as [c Hin].
  destruct (emitted_inv _ _ _ _ _ _ Hin) as (_ & y0 & cs & Hy & _ & Epc).
  assert (Hc : In c names).
  { apply (proj1 (build_lanes_keys height spacing g_height g_padding
                    names c)).
    rewrite Hy. discriminate. }
  destruct (first_occurrence c names Hc) as (b & a & Eb & Hb).
  destruct (build_lanes_position height spacing g_height g_padding b a c Hb)
    as (P1 & _).
  rewrite <- Eb in P1. cbv zeta in P1.
  exists c, b, a. split; [exact Eb|]. split; [exact Hb|].
  assert (y0 = Z.of_nat (length a) * (height + spacing))%Z by congruence.
  subst y0. rewrite Epc in Hpoly. simpl in Hpoly.
  apply in_map_iff in Hpoly. destruct Hpoly as ([s w] & <- & _).
  reflexivity.
Qed.

End PlotProperties.

(** ** The further properties at concrete inputs *)

Lemma empty_frame_witness :
  chrom ex_df_empty = [] /\
  run ex_df_empty ex_y 1%Z tt = (Ok tt, mkWorld ex_df_empty [] []).
Proof.
  split; [reflexivity|].
  exact (empty_frame ex_df_empty ex_y 1%Z tt eq_refl).
Defined.

Lemma kwargs_passed_through_witness :
  In ex_batch_kwargs (w_yielded (snd (run ex_df ex_y 1%Z ex_kwargs))) /\
  kwargs ex_batch_kwargs = [("alpha", "0.5"); ("linewidths", "0")].
Proof.
  assert (Hin : In ex_batch_kwargs
                   (w_yielded (snd (run ex_df ex_y 1%Z ex_kwargs))))
    by (left; reflexivity).
  split; [exact Hin|].
  exact (kwargs_passed_through ex_df ex_y 1%Z ex_kwargs ex_batch_kwargs Hin).
Defined.

Lemma lanes_of_absent_categories_ignored_witness :
  (forall c, In c (chrom ex_df) ->
             lookup c ex_y = lookup c (("chr7", 9%Z) :: ex_y)) /\
  run ex_df ex_y 1%Z tt = run ex_df (("chr7", 9%Z) :: ex_y) 1%Z tt.
Proof.
  assert (H : forall c, In c (chrom ex_df) ->
                        lookup c ex_y = lookup c (("chr7", 9%Z) :: ex_y))
    by (intros c [<-|[<-|[]]]; reflexivity).
  split; [exact H|].
  exact (lanes_of_absent_categories_ignored ex_df ex_y
           (("chr7", 9%Z) :: ex_y) 1%Z tt H).
Defined.

Lemma end_unused_with_width_witness :
  width ex_df_width = Some [400; 300]%Z /\
  w_yielded (snd (run ex_df_width ex_y 1%Z tt)) =
  w_yielded
    (snd (run (mkDataFrame (chrom ex_df_width) (start ex_df_width)
                 [0; 0]%Z (Some [400; 300]%Z) (others ex_df_width))
              ex_y 1%Z tt)).
Proof.
  split; [reflexivity|].
  exact (proj2 (proj2 (end_unused_with_width ex_df_width [0; 0]%Z
                         [400; 300]%Z ex_y 1%Z tt eq_refl))).
Defined.

Lemma span_on_integers_witness :
  width ex_df = None /\
  In ex_batch_chr1 (w_yielded (snd (run ex_df ex_y 1%Z tt))) /\
  nth_error (verts ex_batch_chr1) 0 =
    Some [(100, 0); (100, 1); (500, 1); (500, 0); (100, 0)]%Z /\
  exists c s e,
    In (c, ex_batch_chr1) (emitted (run ex_df ex_y 1%Z tt)) /\
    nth_error (records_se ex_df c) 0 = Some (s, e) /\
    [100; 100; 500; 500; 100]%Z = [s; s; e; e; s].
Proof.
  assert (Hin : In ex_batch_chr1 (w_yielded (snd (run ex_df ex_y 1%Z tt))))
    by (left; reflexivity).
  split; [reflexivity|]. split; [exact Hin|]. split; [reflexivity|].
  exact (span_on_integers ex_df ex_y 1%Z tt ex_batch_chr1 0
           [(100, 0); (100, 1); (500, 1); (500, 0); (100, 0)]%Z
           eq_refl Hin eq_refl).
Defined.

Lemma span_on_int64_witness :
  width ex_df_int64 = None /\
  Forall in_int64 (end_ ex_df_int64) /\
  In ex_batch_int64 (w_yielded (snd (run ex_df_int64 ex_y 1%Z tt))) /\
  exists c s e,
    In (c, ex_batch_int64) (emitted (run ex_df_int64 ex_y 1%Z tt)) /\
    nth_error (records_se ex_df_int64 c) 0 = Some (s, e) /\
    map fst (hd [] (verts ex_batch_int64)) = [s; s; e; e; s].
Proof.
  assert (Hr : Forall in_int64 (end_ ex_df_int64)).
  { constructor; [|constructor]. unfold in_int64. simpl. lia. }
  assert (Hin : In ex_batch_int64
                   (w_yielded (snd (run ex_df_int64 ex_y 1%Z tt))))
    by (left; vm_compute; reflexivity).
  split; [reflexivity|]. split; [exact Hr|]. split; [exact Hin|].
  exact (span_on_int64 ex_df_int64 ex_y 1%Z tt ex_batch_int64 0
           (hd [] (verts ex_batch_int64)) eq_refl Hr Hin eq_refl).
Defined.

Lemma lane_position_witness :
  ~ In "chr3" ["chr1"; "chr2"] /\
  lookup "chr3"
    (chrom_ybase (build_lanes (F:=sfloat) chrom_height chrom_spacing
                    gene_height gene_padding
                    (["chr1"; "chr2"] ++ "chr3" :: ["chrX"; "chrY"])))
  = Some 4%Z.
Proof.
  assert (H : ~ In "chr3" ["chr1"; "chr2"]).
  { intros [E|[E|[]]]; discriminate. }
  split; [exact H|].
  exact (proj1 (lane_position (F:=sfloat) chrom_height chrom_spacing
                  gene_height gene_padding ["chr1"; "chr2"]
                  ["chrX"; "chrY"] "chr3" H)).
Defined.

Lemma lanes_disjoint_witness :
  (0 <= chrom_height)%Z /\ (0 <= chrom_spacing)%Z /\ "chr1" <> "chrX" /\
  lookup "chr1"
    (chrom_ybase (build_lanes (F:=sfloat) chrom_height chrom_spacing
                    gene_height gene_padding chromosome_list)) = Some 46%Z /\
  lookup "chrX"
    (chrom_ybase (build_lanes (F:=sfloat) chrom_height chrom_spacing
                    gene_height gene_padding chromosome_list)) = Some 2%Z /\
  (46 + chrom_height <= 2 \/ 2 + chrom_height <= 46)%Z /\
  ((0 < chrom_spacing)%Z ->
   (46 + chrom_height < 2 \/ 2 + chrom_height < 46)%Z).
Proof.
  assert (H1 : (0 <= chrom_height)%Z) by (unfold chrom_height; lia).
  assert (H2 : (0 <= chrom_spacing)%Z) by (unfold chrom_spacing; lia).
  assert (H3 : "chr1" <> "chrX") by discriminate.
  split; [exact H1|]. split; [exact H2|]. split; [exact H3|].
  split; [reflexivity|]. split; [reflexivity|].
  exact (lanes_disjoint (F:=sfloat) chrom_height chrom_spacing gene_height
           gene_padding chromosome_list "chr1" "chrX" 46%Z 2%Z H1 H2 H3
           eq_refl eq_refl).
Defined.


Lemma ticks_at_lane_centres_witness :
  plot chromosome_list chrom_height chrom_spacing gene_height gene_padding
       ex_table ex_palette = SOk ex_state /\
  Forall2
    (fun name tick =>
       exists y0,
         lookup name
           (chrom_ybase (build_lanes (F:=sfloat) chrom_height chrom_spacing
                           gene_height gene_padding chromosome_list))
         = Some y0 /\
         tick = fadd (of_int y0) (fdiv (of_int chrom_height)
                                       (of_decimal 2 0)))
    chromosome_list (yticks (fig ex_state)).
Proof.
  assert (H : plot chromosome_list chrom_height chrom_spacing gene_height
                   gene_padding ex_table ex_palette = SOk ex_state)
    by (vm_compute; reflexivity).
  split; [exact H|].
  exact (ticks_at_lane_centres chrom_height chrom_spacing gene_height
           gene_padding chromosome_list ex_table ex_palette ex_state H).
Defined.

Lemma polygons_in_lanes_witness :
  plot chromosome_list chrom_height chrom_spacing gene_height gene_padding
       ex_table ex_palette = SOk ex_state /\
  In (hd (mkPolyCollection [] [] []) (collections (fig ex_state)))
     (collections (fig ex_state)) /\
  In [(100, 46); (100, 47); (500, 47); (500, 46); (100, 46)]%Z
     (verts (hd (mkPolyCollection [] [] []) (collections (fig ex_state)))) /\
  exists c before after,
    chromosome_list = before ++ c :: after /\ ~ In c before /\
    let y0 := (Z.of_nat (length after) * (chrom_height + chrom_spacing))%Z in
    map snd [(100, 46); (100, 47); (500, 47); (500, 46); (100, 46)]%Z =
      [y0; y0 + chrom_height; y0 + chrom_height; y0; y0]%Z.
Proof.
  assert (H : plot chromosome_list chrom_height chrom_spacing gene_height
                   gene_padding ex_table ex_palette = SOk ex_state)
    by (vm_compute; reflexivity).
  assert (H1 : In (hd (mkPolyCollection [] [] [])
                      (collections (fig ex_state)))
                  (collections (fig ex_state)))
    by (left; reflexivity).
  assert (H2 : In [(100, 46); (100, 47); (500, 47); (500, 46); (100, 46)]%Z
                  (verts (hd (mkPolyCollection [] [] [])
                             (collections (fig ex_state)))))
    by (left; reflexivity).
  split; [exact H|]. split; [exact H1|]. split; [exact H2|].
  exact (polygons_in_lanes chrom_height chrom_spacing gene_height
           gene_padding chromosome_list ex_table ex_palette ex_state _ _
           H H1 H2).
Defined.
